(** * Git Helper: workspace resolution and git synchronisation

    A shallow embedding of the TypeScript sources of the Git Helper plugin
    ([src/services/git.ts], [src/services/vscode.ts], [src/services/cursor.ts],
    [src/utils/workspace-cache.ts], [src/index.ts]) together with the
    properties of its specification.

    Conventions.
    - A JavaScript string is a [string]: the bytes of its UTF-8 encoding.
    - [null] and [undefined] results are [None]; a thrown exception is
      [Throw msg], where [msg] is the [message] of the thrown value (the
      empty string when it has none).
    - Calls to the logger only print and are left out. *)

From Stdlib Require Import String Ascii List NArith ZArith Lia Bool.
From Stdlib Require Import DecimalString DecimalNat Sorted.
From stdpp Require Import base option strings gmap.
Import ListNotations.

Local Open Scope string_scope.
Local Open Scope list_scope.

(** ** Results of calls that may throw *)

Inductive Res (A : Type) : Type :=
| Ok (a : A)
| Throw (msg : string).
Arguments Ok {A} a.
Arguments Throw {A} msg.

(** ** JavaScript string primitives *)

Module JS.

(** [s.startsWith(p)] and the remainder after the prefix. *)
Fixpoint strip_prefix (p s : string) : option string :=
  match p, s with
  | EmptyString, _ => Some s
  | String a p', String b s' =>
      if Ascii.eqb a b then strip_prefix p' s' else None
  | String _ _, EmptyString => None
  end.

Definition startsWith (s p : string) : bool :=
  match strip_prefix p s with Some _ => true | None => false end.

(** [s.replace(/^p/, '')] for a literal [p]. *)
Definition remove_prefix (p s : string) : string :=
  match strip_prefix p s with Some r => r | None => s end.

(** [s.replace(p, '')] with a string pattern: only the first occurrence
    is removed, wherever it is. *)
Fixpoint remove_first (p s : string) : string :=
  match strip_prefix p s with
  | Some r => r
  | None =>
      match s with
      | EmptyString => EmptyString
      | String c s' => String c (remove_first p s')
      end
  end.

(** [s.includes(p)] *)
Fixpoint includes (s p : string) : bool :=
  match strip_prefix p s with
  | Some _ => true
  | None =>
      match s with
      | EmptyString => false
      | String _ s' => includes s' p
      end
  end.

(** [s.endsWith(p)] *)
Fixpoint endsWith (s p : string) : bool :=
  if String.eqb s p then true
  else match s with
       | EmptyString => false
       | String _ s' => endsWith s' p
       end.

(** [s.replace(/p$/, '')] for a literal [p]. *)
Fixpoint remove_suffix (p s : string) : string :=
  if String.eqb s p then EmptyString
  else match s with
       | EmptyString => EmptyString
       | String c s' => String c (remove_suffix p s')
       end.

(** [s.toLowerCase()]; only the letters A-Z are mapped.  No other
    character lower-cases to an ASCII letter that occurs in the words
    this program searches for. *)
Definition lower_char (c : ascii) : ascii :=
  let n := N_of_ascii c in
  if ((65 <=? n) && (n <=? 90))%N then ascii_of_N (n + 32) else c.

Fixpoint toLowerCase (s : string) : string :=
  match s with
  | EmptyString => EmptyString
  | String c s' => String (lower_char c) (toLowerCase s')
  end.

(** Truthiness of a string. *)
Definition truthy (s : string) : bool := negb (String.eqb s "").

(** [a || b] on strings. *)
Definition or_else (a b : string) : string := if truthy a then a else b.

(** [x || ''] where [x] is a string or null. *)
Definition or_empty (x : option string) : string :=
  match x with Some s => s | None => "" end.

(** Template rendering of a non-negative integer. *)
Definition of_nat (n : nat) : string :=
  NilEmpty.string_of_uint (Nat.to_uint n).

(** *** decodeURIComponent

    The [Decode] operation of ECMA-262 with an empty reserved set.  A
    [%XX] escape whose octet is below 0x80 yields that character; an
    octet with [n] leading one bits (2 <= n <= 4) must be followed by
    [n-1] further escapes, and the octets together must be the UTF-8
    encoding of a code point.  Anything else raises [URIError]
    ([None]).  In the UTF-8 model of strings the decoded character is
    the octet sequence itself. *)

Definition hex_digit (c : ascii) : option N :=
  let n := N_of_ascii c in
  if ((48 <=? n) && (n <=? 57))%N then Some (n - 48)%N
  else if ((65 <=? n) && (n <=? 70))%N then Some (n - 55)%N
  else if ((97 <=? n) && (n <=? 102))%N then Some (n - 87)%N
  else None.

Definition hex_octet (h l : ascii) : option N :=
  match hex_digit h, hex_digit l with
  | Some a, Some b => Some (16 * a + b)%N
  | _, _ => None
  end.

(** Number of leading one bits of an octet (5 stands for "more than 4"). *)
Definition leading_ones (b : N) : nat :=
  if (b <? 128)%N then 0
  else if (b <? 192)%N then 1
  else if (b <? 224)%N then 2
  else if (b <? 240)%N then 3
  else if (b <? 248)%N then 4
  else 5.

Definition is_continuation (b : N) : bool :=
  ((128 <=? b) && (b <? 192))%N.

(** The octets are the UTF-8 encoding of one code point: continuation
    bytes well formed, no overlong form, no surrogate, at most U+10FFFF. *)
Definition valid_utf8 (octets : list N) : bool :=
  match octets with
  | [b0; b1] =>
      is_continuation b1 &&
      (128 <=? (b0 - 192) * 64 + (b1 - 128))%N
  | [b0; b1; b2] =>
      let cp := ((b0 - 224) * 4096 + (b1 - 128) * 64 + (b2 - 128))%N in
      is_continuation b1 && is_continuation b2 &&
      (2048 <=? cp)%N && negb ((55296 <=? cp) && (cp <=? 57343))%N
  | [b0; b1; b2; b3] =>
      let cp := ((b0 - 240) * 262144 + (b1 - 128) * 4096
                 + (b2 - 128) * 64 + (b3 - 128))%N in
      is_continuation b1 && is_continuation b2 && is_continuation b3 &&
      (65536 <=? cp)%N && (cp <=? 1114111)%N
  | _ => false
  end.

Fixpoint octets_to_string (l : list N) (rest : string) : string :=
  match l with
  | [] => rest
  | b :: l' => String (ascii_of_N b) (octets_to_string l' rest)
  end.

(** [need] is the number of continuation escapes still expected for the
    character being decoded and [acc] the octets read for it so far. *)
Fixpoint decode_from (acc : list N) (need : nat) (s : string)
  : option string :=
  match need with
  | O =>
      match s with
      | EmptyString => Some EmptyString
      | String c rest =>
          if Ascii.eqb c "%" then
            match rest with
            | String h (String l rest') =>
                match hex_octet h l with
                | None => None
                | Some b =>
                    match leading_ones b with
                    | 0 => String (ascii_of_N b) <$> decode_from [] 0 rest'
                    | 1 => None
                    | 2 => decode_from [b] 1 rest'
                    | 3 => decode_from [b] 2 rest'
                    | 4 => decode_from [b] 3 rest'
                    | _ => None
                    end
                end
            | _ => None
            end
          else String c <$> decode_from [] 0 rest
      end
  | S k =>
      match s with
      | String c (String h (String l rest')) =>
          if Ascii.eqb c "%" then
            match hex_octet h l with
            | None => None
            | Some b =>
                let acc' := acc ++ [b] in
                match k with
                | O =>
                    if valid_utf8 acc'
                    then octets_to_string acc' <$> decode_from [] 0 rest'
                    else None
                | S _ => decode_from acc' k rest'
                end
            end
          else None
      | _ => None
      end
  end.

Definition decodeURIComponent (s : string) : option string :=
  decode_from [] 0 s.

(** No percent sign occurs in the string. *)
Fixpoint percent_free (s : string) : bool :=
  match s with
  | EmptyString => true
  | String c s' => negb (Ascii.eqb c "%") && percent_free s'
  end.

(** The line feed that ends a line of output. *)
Definition newline : string := String "010"%char EmptyString.

(** *** trim and parseInt

    Only the ASCII white space characters are recognised; the output of
    the version-control commands is ASCII. *)
Definition is_space (c : ascii) : bool :=
  let n := N_of_ascii c in
  (((9 <=? n) && (n <=? 13)) || (n =? 32))%N.

Fixpoint trimStart (s : string) : string :=
  match s with
  | String c r => if is_space c then trimStart r else s
  | EmptyString => EmptyString
  end.

Fixpoint trimEnd (s : string) : string :=
  match s with
  | EmptyString => EmptyString
  | String c r =>
      let r' := trimEnd r in
      if is_space c && String.eqb r' "" then EmptyString else String c r'
  end.

Definition trim (s : string) : string := trimEnd (trimStart s).

Definition digit_val (c : ascii) : option nat :=
  let n := N_of_ascii c in
  if ((48 <=? n) && (n <=? 57))%N then Some (N.to_nat (n - 48)) else None.

(** Value of the longest prefix of decimal digits, continuing from [acc]. *)
Fixpoint digits_from (acc : nat) (s : string) : nat :=
  match s with
  | String c r =>
      match digit_val c with
      | Some d => digits_from (d + 10 * acc) r
      | None => acc
      end
  | EmptyString => acc
  end.

(** [parseInt(s, 10)]: leading white space, an optional sign, then the
    longest run of digits; [None] is NaN (no digit).  The float rounding
    of very long digit strings keeps the sign and never reaches zero, so
    comparisons with 0 are those of the exact value. *)
Definition parseInt (s : string) : option Z :=
  let s1 := trimStart s in
  let '(neg, s2) :=
    match s1 with
    | String c r =>
        if Ascii.eqb c "-" then (true, r)
        else if Ascii.eqb c "+" then (false, r)
        else (false, s1)
    | EmptyString => (false, s1)
    end in
  match s2 with
  | String c _ =>
      match digit_val c with
      | Some _ =>
          let n := Z.of_nat (digits_from 0 s2) in
          Some (if neg : bool then (- n)%Z else n)
      | None => None
      end
  | EmptyString => None
  end.

(** Every character is a decimal digit. *)
Fixpoint all_digits (s : string) : bool :=
  match s with
  | EmptyString => true
  | String c r =>
      match digit_val c with Some _ => all_digits r | None => false end
  end.

(** [x > 0] for the result of [parseInt]; a comparison with NaN is false. *)
Definition gt_zero (x : option Z) : bool :=
  match x with Some z => (0 <? z)%Z | None => false end.

End JS.

(** ** Exceptions and state

    [Eff S A] is a computation over a state [S] that returns an [A] or
    throws; [try_catch] is [try { m } catch (e) { h e.message }]. *)

Definition Eff (S A : Type) : Type := S -> S * Res A.

Definition ret {S A : Type} (a : A) : Eff S A := fun s => (s, Ok a).

(** A step that only returns or throws. *)
Definition of_result {S A : Type} (r : Res A) : Eff S A := fun s => (s, r).

Definition bind {S A B : Type} (m : Eff S A) (k : A -> Eff S B) : Eff S B :=
  fun s =>
    match m s with
    | (s', Ok a) => k a s'
    | (s', Throw e) => (s', Throw e)
    end.

Definition try_catch {S A : Type} (m : Eff S A) (h : string -> Eff S A)
  : Eff S A :=
  fun s =>
    match m s with
    | (s', Ok a) => (s', Ok a)
    | (s', Throw e) => h e s'
    end.

Declare Scope eff_scope.
Delimit Scope eff_scope with eff.
Notation "'let*' x ':=' m 'in' k" := (bind m (fun x => k))
  (at level 10, x name, m at level 100, k at level 200) : eff_scope.
Notation "'await' m 'in' k" := (bind m (fun _ => k))
  (at level 10, m at level 100, k at level 200) : eff_scope.

(** ** JSON values

    The values [JSON.parse] produces.  Numbers are the integers (of
    magnitude below 2^53); fractional numbers do not occur in the files
    this program reads. *)

Module Json.

#[warnings="-register-all"]
Inductive JVal :=
| JNull
| JBool (b : bool)
| JNum (z : Z)
| JStr (s : string)
| JArr (items : list JVal)
| JObj (fields : gmap string JVal).

Abbreviation JObject := (gmap string JVal).

(** Truthiness. *)
Definition truthy (v : JVal) : bool :=
  match v with
  | JNull => false
  | JBool b => b
  | JNum z => negb (z =? 0)%Z
  | JStr s => JS.truthy s
  | JArr _ | JObj _ => true
  end.

Fixpoint join_with (sep : string) (l : list string) : string :=
  match l with
  | [] => ""
  | [x] => x
  | x :: l' => x +:+ sep +:+ join_with sep l'
  end.

(** [String(v)]: the conversion applied when a value is used as a string
    or as a property key. *)
Fixpoint toString (v : JVal) : string :=
  match v with
  | JNull => "null"
  | JBool true => "true"
  | JBool false => "false"
  | JNum z => NilEmpty.string_of_int (Z.to_int z)
  | JStr s => s
  | JArr items =>
      join_with ","
        (map (fun x => match x with JNull => "" | _ => toString x end) items)
  | JObj _ => "[object Object]"
  end.

(** [v?.k] for one of the field names this program reads from storage
    documents ([None] is [undefined]).  None of those names is numeric or
    names a built-in member, so only objects have them. *)
Definition get_field (v : option JVal) (k : string) : option JVal :=
  match v with
  | Some (JObj fields) => fields !! k
  | _ => None
  end.

(** [data.k] on what [JSON.parse] returned: [null] has no properties. *)
Definition field_of (data : JVal) (k : string) : Res (option JVal) :=
  match data with
  | JNull => Throw ("Cannot read properties of null (reading '" +:+ k +:+ "')")
  | _ => Ok (get_field (Some data) k)
  end.

(** [v?.[0]] *)
Definition get_first (v : option JVal) : option JVal :=
  match v with
  | Some (JObj fields) => fields !! "0"
  | Some (JArr items) => head items
  | Some (JStr (String c _)) => Some (JStr (String c EmptyString))
  | _ => None
  end.

(** Truthiness of a possibly undefined value. *)
Definition is_truthy (v : option JVal) : bool :=
  match v with Some x => truthy x | None => false end.

(** The members every object inherits from [Object.prototype]. *)
Definition Object_prototype : list string :=
  ["constructor"; "__defineGetter__"; "__defineSetter__"; "hasOwnProperty";
   "__lookupGetter__"; "__lookupSetter__"; "isPrototypeOf";
   "propertyIsEnumerable"; "toString"; "valueOf"; "__proto__";
   "toLocaleString"].

Definition inherited (k : string) : bool :=
  existsb (String.eqb k) Object_prototype.

(** What reading a property of a parsed object can give at run time. *)
Inductive Value :=
| Data (v : JVal)     (* an own property *)
| Builtin             (* an inherited function or the prototype object *)
| Undefined.

Definition value_truthy (x : Value) : bool :=
  match x with
  | Data v => truthy v
  | Builtin => true
  | Undefined => false
  end.

(** The property key a value converts to. *)
Definition toPropertyKey (x : Value) : string :=
  match x with
  | Data v => toString v
  | Builtin => "function () { [native code] }"
  | Undefined => "undefined"
  end.

(** [o[k]] for an arbitrary key on a parsed object. *)
Definition get_property (o : JObject) (k : string) : Value :=
  match o !! k with
  | Some v => Data v
  | None => if inherited k then Builtin else Undefined
  end.

(** [o[k] = v] for [v] a string or [null], as far as [JSON.stringify]
    can tell afterwards: assigning to [__proto__] goes to the inherited
    setter, which creates no property, unless the parsed document has an
    own property of that name. *)
Definition set_property (o : JObject) (k : string) (v : JVal) : JObject :=
  match o !! k with
  | Some _ => <[k := v]> o
  | None => if String.eqb k "__proto__" then o else <[k := v]> o
  end.

(** The array index a property key denotes: the canonical decimal form of
    a natural number. *)
Definition array_index (k : string) : option nat :=
  if JS.all_digits k && JS.truthy k
     && String.eqb (JS.of_nat (JS.digits_from 0 k)) k
  then Some (JS.digits_from 0 k)
  else None.

(** Reading and assigning a property of a parsed value that is neither an
    object nor [null], as the reference host of the examples has them: an
    array is read at the indices it has and every other read gives
    [undefined]; an assignment to an array at an index replaces the
    element or extends the array (the holes are serialised as [null]), at
    another key it adds a property that [JSON.stringify] leaves out, and
    an assignment to a boolean, a number or a string throws, module code
    being strict. *)
Definition reference_read (v : JVal) (k : string) : Value :=
  match v with
  | JArr items =>
      match array_index k with
      | Some n =>
          match items !! n with
          | Some x => Data x
          | None => Undefined
          end
      | None => Undefined
      end
  | _ => Undefined
  end.

Definition reference_write (v : JVal) (k : string) (x : JVal) : Res JVal :=
  match v with
  | JArr items =>
      match array_index k with
      | Some n =>
          if (n <? length items)%nat then Ok (JArr (<[n := x]> items))
          else Ok (JArr (items ++ replicate (n - length items) JNull ++ [x]))
      | None => Ok v
      end
  | _ => Throw ("Cannot create property '" +:+ k +:+ "'")
  end.

End Json.

(** ** The host: platform, home directory, environment and runtime

    [path.join] belongs to the runtime, not to this program; it is a
    parameter.  So is what a property access does on a parsed value that is
    neither an object nor [null], that is on a boolean, a number, a string
    or an array: [read_member v k] is the value of [v[k]], and
    [write_member v k x] is [v] as [JSON.stringify] shows it after
    [v[k] = x], or the exception the assignment throws.  Indices, [length],
    the members of the prototypes and the strictness of the code decide
    them; this program fixes none of that. *)

Inductive Platform := darwin | win32 | linux | other_platform.

Record Host := {
  platform : Platform;
  homedir : string;
  env_APPDATA : option string;
  path_join : list string -> string;
  read_member : Json.JVal -> string -> Json.Value;
  write_member : Json.JVal -> string -> Json.JVal -> Res Json.JVal
}.

(** ** Shared types ([src/types.ts]) *)

Module Types.

Record PluginContext := { keyword : string; overlaidApp : string }.

Record Action := {
  id : string;
  title : string;
  description : string;
  icon : option string
}.

Record ActionResult := { message : string }.

Record GitStatus := {
  isRepo : bool;
  branch : string;
  changedFilesCount : nat;
  hasChanges : bool;
  hasUnpushedCommits : bool
}.

End Types.

(** ** GitService ([src/services/git.ts]) *)

Module Git.

Import Types(GitStatus).

(** One entry of [git.getRemotes(true)]. *)
Record Remote := { name : string; refs_fetch : string; refs_push : string }.

(** The fields of simple-git's [StatusResult] that the service reads. *)
Record StatusResult := {
  current : option string;
  created : list string;
  deleted : list string;
  modified : list string;
  renamed : list (string * string);
  not_added : list string
}.

Record SyncResult := { success : bool; message : string }.

(** The version-control capability: what each simple-git call on the
    handle bound to [baseDir] answers in a world [w].  Queries leave the
    world as it is; [add], [commit] and [push] give the world they leave
    behind, also when they throw. *)
Record SimpleGit (W : Type) := {
  simpleGit : string -> W -> Res unit;
  git_revparse : string -> list string -> W -> Res string;
  git_status : string -> W -> Res StatusResult;
  git_getRemotes : string -> W -> Res (list Remote);
  git_raw : string -> list string -> W -> Res string;
  git_add : string -> string -> W -> W * Res unit;
  git_commit : string -> string -> W -> W * Res unit;
  git_push : string -> string -> string -> W -> W * Res unit
}.
Arguments simpleGit {W}.
Arguments git_revparse {W}.
Arguments git_status {W}.
Arguments git_getRemotes {W}.
Arguments git_raw {W}.
Arguments git_add {W}.
Arguments git_commit {W}.
Arguments git_push {W}.

(** The calls issued on the handle, in order (a record of what the service
    did, kept next to the world). *)
Inductive GitCall :=
| CallRevparse (args : list string)
| CallStatus
| CallGetRemotes
| CallRaw (args : list string)
| CallAdd (files : string)
| CallCommit (msg : string)
| CallPush (remote branch : string).

(** The probe of [isGitRepository]. *)
Definition probe : GitCall := CallRevparse ["--is-inside-work-tree"].

Definition is_mutating (c : GitCall) : bool :=
  match c with
  | CallAdd _ | CallCommit _ | CallPush _ _ => true
  | _ => false
  end.

Record St (W : Type) := { world : W; calls : list GitCall }.
Arguments world {W}.
Arguments calls {W}.

(** [git] is the handle ([None] for [null]), identified with the directory
    it is bound to. *)
Record GitService := { git : option string; workspacePath : string }.

(** [cleanWorkspacePath] *)
Definition cleanWorkspacePath (workspace : string) : string :=
  let cleanPath := JS.remove_prefix "file://" workspace in
  match JS.decodeURIComponent cleanPath with
  | Some decoded => decoded
  | None => cleanPath
  end.

Section Service.

Context {W : Type}.
Variable existsSync : string -> W -> bool.
Variable G : SimpleGit W.
Variable host : Host.

Local Open Scope eff_scope.

Abbreviation M := (Eff (St W)).

Definition query {A : Type} (c : GitCall) (f : W -> Res A) : M A :=
  fun s => ({| world := world s; calls := calls s ++ [c] |}, f (world s)).

Definition command (c : GitCall) (f : W -> W * Res unit) : M unit :=
  fun s => let '(w', r) := f (world s) in
           ({| world := w'; calls := calls s ++ [c] |}, r).

Definition fs_existsSync (p : string) : M bool :=
  fun s => (s, Ok (existsSync p (world s))).

Definition call_revparse (h : string) (args : list string) : M string :=
  query (CallRevparse args) (git_revparse G h args).
Definition call_status (h : string) : M StatusResult :=
  query CallStatus (git_status G h).
Definition call_getRemotes (h : string) : M (list Remote) :=
  query CallGetRemotes (git_getRemotes G h).
Definition call_raw (h : string) (args : list string) : M string :=
  query (CallRaw args) (git_raw G h args).
Definition call_add (h : string) (files : string) : M unit :=
  command (CallAdd files) (git_add G h files).
Definition call_commit (h : string) (msg : string) : M unit :=
  command (CallCommit msg) (git_commit G h msg).
Definition call_push (h : string) (remote branch : string) : M unit :=
  command (CallPush remote branch) (git_push G h remote branch).

(** [constructor] *)
Definition new_GitService (workspacePath : string) (w : W) : GitService :=
  if JS.truthy workspacePath then
    let cleanPath := cleanWorkspacePath workspacePath in
    {| workspacePath := cleanPath;
       git := match simpleGit G cleanPath w with
              | Ok _ => Some cleanPath
              | Throw _ => None
              end |}
  else {| git := None; workspacePath := "" |}.

(** [isGitRepository] *)
Definition isGitRepository (svc : GitService) : M bool :=
  match git svc with
  | None => ret false
  | Some h =>
      try_catch
        (let gitDir := path_join host [workspacePath svc; ".git"] in
         let* present := fs_existsSync gitDir in
         if negb present then ret false
         else
           await call_revparse h ["--is-inside-work-tree"] in
           ret true)
        (fun _ => ret false)
  end.

Definition count_changes (status : StatusResult) : nat :=
  length (created status) + length (deleted status)
  + length (modified status) + length (renamed status)
  + length (not_added status).

(** [hasUnpushedCommits] *)
Definition hasUnpushedCommits (svc : GitService) : M bool :=
  match git svc with
  | None => ret false
  | Some h =>
      try_catch
        (let* status := call_status h in
         let currentBranch := JS.or_empty (current status) in
         if negb (JS.truthy currentBranch) then ret false
         else
           let* remotes := call_getRemotes h in
           match remotes with
           | [] => ret false
           | r0 :: _ =>
               let defaultRemote := name r0 in
               let remoteBranch := defaultRemote +:+ "/" +:+ currentBranch in
               let* tracked :=
                 try_catch
                   (await call_revparse h
                            ["--verify"; "refs/remotes/" +:+ remoteBranch] in
                    ret true)
                   (fun _ => ret false) in
               if negb tracked then ret true
               else
                 let* diff := call_raw h ["rev-list"; "--count";
                                          remoteBranch +:+ ".." +:+ currentBranch] in
                 let count := JS.parseInt (JS.trim diff) in
                 ret (JS.gt_zero count)
           end)
        (fun _ => ret false)
  end.

(** [getStatus] *)
Definition defaultStatus : GitStatus :=
  {| Types.isRepo := false;
     Types.branch := "";
     Types.changedFilesCount := 0;
     Types.hasChanges := false;
     Types.hasUnpushedCommits := false |}.

Definition getStatus (svc : GitService) : M GitStatus :=
  match git svc with
  | None => ret defaultStatus
  | Some h =>
      try_catch
        (let* isRepo := isGitRepository svc in
         if negb isRepo then ret defaultStatus
         else
           let* status := call_status h in
           let branch := JS.or_empty (current status) in
           let changedFilesCount := count_changes status in
           let* unpushed := hasUnpushedCommits svc in
           ret {| Types.isRepo := isRepo;
                  Types.branch := branch;
                  Types.changedFilesCount := changedFilesCount;
                  Types.hasChanges := (0 <? changedFilesCount)%nat;
                  Types.hasUnpushedCommits := unpushed |})
        (fun _ => ret defaultStatus)
  end.

(** One clause of the description: appended when the category is not
    empty. *)
Definition describe (label : string) (n : nat) (description : string)
  : string :=
  if (0 <? n)%nat
  then description +:+ label +:+ ": " +:+ JS.of_nat n +:+ "个文件, "
  else description.

Definition description_of (status : StatusResult) : string :=
  let description := "" in
  let description := describe "新增" (length (created status)) description in
  let description := describe "修改" (length (modified status)) description in
  let description := describe "删除" (length (deleted status)) description in
  let description := describe "重命名" (length (renamed status)) description in
  let description := describe "未跟踪" (length (not_added status)) description in
  JS.remove_suffix ", " description.

(** [getChangesDescription] *)
Definition getChangesDescription (svc : GitService) : M string :=
  match git svc with
  | None => ret ""
  | Some h =>
      try_catch
        (let* status := call_status h in
         ret (description_of status))
        (fun _ => ret "")
  end.

Definition commit_message (changesDescription : string) : string :=
  "自动提交: " +:+ changesDescription +:+ " [GitOK]".

(** [commitAndPush] *)
Definition commitAndPush (svc : GitService) : M SyncResult :=
  match git svc with
  | None => ret {| success := false; message := "Git服务未初始化" |}
  | Some h =>
      try_catch
        (let* isRepo := isGitRepository svc in
         if negb isRepo
         then ret {| success := false; message := "当前目录不是Git仓库" |}
         else
           let* status := call_status h in
           let changedFilesCount := count_changes status in
           if (changedFilesCount =? 0)%nat
           then ret {| success := false; message := "没有需要提交的更改" |}
           else
             let* changesDescription := getChangesDescription svc in
             let commitMessage := commit_message changesDescription in
             await call_add h "." in
             await call_commit h commitMessage in
             let* remotes := call_getRemotes h in
             if (length remotes =? 0)%nat
             then ret {| success := true;
                         message := "已成功提交更改，但未找到远程仓库，无法推送" |}
             else
               let currentBranch := JS.or_empty (current status) in
               if negb (JS.truthy currentBranch)
               then ret {| success := true;
                           message := "已成功提交更改，但未能获取当前分支，无法推送" |}
               else
                 await call_push h "origin" currentBranch in
                 ret {| success := true;
                        message := "已成功提交并推送更改: " +:+ commitMessage |})
        (fun e =>
           ret {| success := false;
                  message := "提交并推送失败: " +:+ JS.or_else e "未知错误" |})
  end.

End Service.

End Git.



(** ** The file system

    Paths are compared as strings.  A file holds a JSON document, an
    SQLite database with an [ItemTable], or bytes that are neither.
    [write_denied] are the paths at which creating or writing fails
    (permissions, a parent that is not a directory). *)

Module FS.

Import Json.

(** The value column of a row of [ItemTable]. *)
Inductive Cell :=
| Falsy                    (* NULL or the empty string *)
| NotJson                  (* text or a blob that [JSON.parse] rejects *)
| NotObject                (* JSON for null, a boolean, a number, a string
                              or an array *)
| Document (o : JObject).  (* the serialisation of [o] *)

Record Row := { key : string; value : Cell }.

(** [JsonDoc o] is a JSON document whose top level is the object [o];
    [JsonValue v] is one whose top level [v] is [null], a boolean, a
    number, a string or an array. *)
Inductive Content :=
| Unparsable
| JsonDoc (o : JObject)
| JsonValue (v : JVal)
| Vscdb (table : option (list Row)).

Inductive Node :=
| Dir
| File (c : Content).

Record t := { entries : gmap string Node; write_denied : gset string }.

Definition existsSync (p : string) (fs : t) : bool :=
  match entries fs !! p with Some _ => true | None => false end.

Definition readFileSync (p : string) (fs : t) : Res Content :=
  match entries fs !! p with
  | Some (File c) => Ok c
  | Some Dir => Throw "EISDIR: illegal operation on a directory, read"
  | None => Throw ("ENOENT: no such file or directory, open '" +:+ p +:+ "'")
  end.

(** [fs.mkdirSync(p, { recursive: true })] *)
Definition mkdirSync (p : string) (fs : t) : t * Res unit :=
  if bool_decide (p ∈ write_denied fs)
  then (fs, Throw ("EACCES: permission denied, mkdir '" +:+ p +:+ "'"))
  else
    match entries fs !! p with
    | Some (File _) =>
        (fs, Throw ("EEXIST: file already exists, mkdir '" +:+ p +:+ "'"))
    | Some Dir => (fs, Ok tt)
    | None =>
        ({| entries := <[p := Dir]> (entries fs);
            write_denied := write_denied fs |}, Ok tt)
    end.

Definition writeFileSync (p : string) (c : Content) (fs : t) : t * Res unit :=
  if bool_decide (p ∈ write_denied fs)
  then (fs, Throw ("EACCES: permission denied, open '" +:+ p +:+ "'"))
  else
    match entries fs !! p with
    | Some Dir =>
        (fs, Throw "EISDIR: illegal operation on a directory, open")
    | _ =>
        ({| entries := <[p := File c]> (entries fs);
            write_denied := write_denied fs |}, Ok tt)
    end.

(** [JSON.parse] of what [readFileSync(p, 'utf8')] returned. *)
Definition JSON_parse (c : Content) : Res JVal :=
  match c with
  | JsonDoc o => Ok (JObj o)
  | JsonValue v => Ok v
  | _ => Throw "Unexpected token in JSON"
  end.

(** [JSON.stringify(v, null, 2)], as file content. *)
Definition JSON_stringify (v : JVal) : Content :=
  match v with
  | JObj o => JsonDoc o
  | _ => JsonValue v
  end.

End FS.

(** A world: the file system and the state [V] of the version-control
    system. *)
Record World (V : Type) := { fs : FS.t; vcs : V }.
Arguments fs {V}.
Arguments vcs {V}.

(** [fs.existsSync], seen from a world. *)
Definition world_existsSync {V : Type} (p : string) (w : World V) : bool :=
  FS.existsSync p (fs w).

(** ** A reference repository store

    One instance of the version-control capability, used to run the
    service on concrete repositories: each directory may hold a repository
    with a work-tree status, remotes, remote-tracking refs and the commit
    messages of the current branch (newest first).  A tracking ref records
    how many commits of the branch the remote already has. *)

Module Sim.

Import Git.

Record Repo := {
  valid : bool;
  work_tree : StatusResult;
  remotes : list Remote;
  tracking : gmap string nat;
  history : list string
}.

Abbreviation World := (World (gmap string Repo)).

Definition sim_simpleGit (baseDir : string) (w : World) : Res unit :=
  match FS.entries (fs w) !! baseDir with
  | Some FS.Dir => Ok tt
  | _ => Throw "Cannot use simple-git on a directory that does not exist"
  end.

Definition with_repo {A : Type} (h : string) (w : World)
  (f : Repo -> Res A) : Res A :=
  match vcs w !! h with
  | Some r =>
      if valid r then f r
      else Throw "fatal: not a git repository (or any of the parent directories): .git"
  | None =>
      Throw "fatal: not a git repository (or any of the parent directories): .git"
  end.

Definition sim_revparse (h : string) (args : list string) (w : World)
  : Res string :=
  with_repo h w (fun r =>
    match args with
    | ["--is-inside-work-tree"] => Ok "true"
    | ["--verify"; ref] =>
        match JS.strip_prefix "refs/remotes/" ref with
        | Some rb =>
            match tracking r !! rb with
            | Some _ => Ok "0000000000000000000000000000000000000000"
            | None => Throw "fatal: Needed a single revision"
            end
        | None => Throw "fatal: Needed a single revision"
        end
    | _ => Throw "fatal: bad arguments"
    end).

Definition sim_status (h : string) (w : World) : Res StatusResult :=
  with_repo h w (fun r => Ok (work_tree r)).

Definition sim_getRemotes (h : string) (w : World) : Res (list Remote) :=
  with_repo h w (fun r => Ok (remotes r)).

(** [rev-list --count remote/branch..branch] for the current branch. *)
Definition sim_raw (h : string) (args : list string) (w : World)
  : Res string :=
  with_repo h w (fun r =>
    match args with
    | ["rev-list"; "--count"; range] =>
        let b := JS.or_empty (current (work_tree r)) in
        match
          find (fun kv => String.eqb range (fst kv +:+ ".." +:+ b))
               (map_to_list (tracking r))
        with
        | Some (_, n) => Ok (JS.of_nat (length (history r) - n) +:+ JS.newline)
        | None => Throw "fatal: bad revision"
        end
    | _ => Throw "fatal: bad arguments"
    end).

Definition update_repo (h : string) (w : World) (f : Repo -> Repo * Res unit)
  : World * Res unit :=
  match vcs w !! h with
  | Some r =>
      if valid r then
        let '(r', res) := f r in
        ({| fs := fs w; vcs := <[h := r']> (vcs w) |}, res)
      else (w, Throw "fatal: not a git repository (or any of the parent directories): .git")
  | None =>
      (w, Throw "fatal: not a git repository (or any of the parent directories): .git")
  end.

(** [git add .]: untracked files become staged additions. *)
Definition sim_add (h : string) (files : string) (w : World)
  : World * Res unit :=
  update_repo h w (fun r =>
    let s := work_tree r in
    ({| valid := valid r;
        work_tree := {| current := current s;
                        created := created s ++ not_added s;
                        deleted := deleted s;
                        modified := modified s;
                        renamed := renamed s;
                        not_added := [] |};
        remotes := remotes r;
        tracking := tracking r;
        history := history r |}, Ok tt)).

Definition sim_commit (h : string) (msg : string) (w : World)
  : World * Res unit :=
  update_repo h w (fun r =>
    ({| valid := valid r;
        work_tree := {| current := current (work_tree r);
                        created := []; deleted := []; modified := [];
                        renamed := []; not_added := [] |};
        remotes := remotes r;
        tracking := tracking r;
        history := msg :: history r |}, Ok tt)).

Definition sim_push (h : string) (remote branch : string) (w : World)
  : World * Res unit :=
  update_repo h w (fun r =>
    if existsb (fun x => String.eqb (name x) remote) (remotes r)
    then
      ({| valid := valid r;
          work_tree := work_tree r;
          remotes := remotes r;
          tracking := <[remote +:+ "/" +:+ branch := length (history r)]>
                        (tracking r);
          history := history r |}, Ok tt)
    else
      (r, Throw ("fatal: '" +:+ remote
                 +:+ "' does not appear to be a git repository"))).

Definition backend : SimpleGit World :=
  {| simpleGit := sim_simpleGit;
     git_revparse := sim_revparse;
     git_status := sim_status;
     git_getRemotes := sim_getRemotes;
     git_raw := sim_raw;
     git_add := sim_add;
     git_commit := sim_commit;
     git_push := sim_push |}.

(** A POSIX host whose [path.join] puts a slash between its arguments;
    it agrees with the real one on normalised, non-empty segments.  Its
    property access on arrays and primitive values is the reference one;
    none of the examples holds such a value in the cache file. *)
Definition posix (home : string) : Host :=
  {| platform := linux;
     homedir := home;
     env_APPDATA := None;
     path_join := Json.join_with "/";
     read_member := Json.reference_read;
     write_member := Json.reference_write |}.

Definition no_changes (b : option string) : StatusResult :=
  {| current := b; created := []; deleted := []; modified := [];
     renamed := []; not_added := [] |}.

(** A work tree at [/w] on branch [main] with one modified and one
    untracked file, one earlier commit and the given remotes. *)
Definition dirty_repo (rs : list Remote) (tr : gmap string nat) : Repo :=
  {| valid := true;
     work_tree := {| current := Some "main"; created := []; deleted := [];
                     modified := ["a.ts"]; renamed := [];
                     not_added := ["b.ts"] |};
     remotes := rs;
     tracking := tr;
     history := ["init"] |}.

Definition world_with (r : Repo) : World :=
  {| fs := {| FS.entries := <["/w" := FS.Dir]> (<["/w/.git" := FS.Dir]> ∅);
              FS.write_denied := ∅ |};
     vcs := <["/w" := r]> ∅ |}.

Definition start (w : World) : St World := {| world := w; calls := [] |}.

Definition origin : Remote :=
  {| name := "origin";
     refs_fetch := "git@example.org:u/w.git";
     refs_push := "git@example.org:u/w.git" |}.

Definition upstream : Remote :=
  {| name := "upstream";
     refs_fetch := "git@example.org:team/w.git";
     refs_push := "git@example.org:team/w.git" |}.

Definition host : Host := posix "/home/u".

(** The message of the commit made from [dirty_repo]. *)
Definition auto_message : string :=
  "自动提交: 修改: 1个文件, 未跟踪: 1个文件 [GitOK]".

(** The commit messages of the repository at [/w]. *)
Definition log_of (s : St World) : option (list string) :=
  history <$> (vcs (world s) !! "/w").

Definition service : GitService :=
  new_GitService backend "/w" (world_with (dirty_repo [] ∅)).

End Sim.

(** ** Workspace locators *)

(** The loop shared by both [findStoragePath] methods: the first path of
    the list that exists. *)
Fixpoint first_existing (possiblePaths : list string) (fs : FS.t)
  : option string :=
  match possiblePaths with
  | [] => None
  | filePath :: rest =>
      if FS.existsSync filePath fs then Some filePath
      else first_existing rest fs
  end.

(** The outcome of awaiting a promise: its value, or the exception that
    was thrown inside a callback of the event loop, where no handler of
    this program reaches it.  The promise is then never settled, and the
    runtime reports the exception as uncaught, which ends the process
    unless the embedding application handles it. *)
Inductive Settled (A : Type) : Type :=
| Resolved (a : A)
| Uncaught (e : string).
Arguments Resolved {A} a.
Arguments Uncaught {A} e.

(** *** VSCodeService ([src/services/vscode.ts]) *)

Module VSCode.

Import Json.

Section Service.

Variable host : Host.

Definition possiblePaths : list string :=
  let home := homedir host in
  let join := path_join host in
  match platform host with
  | darwin =>
      [ join [home; "Library/Application Support/Code/storage.json"];
        join [home;
              "Library/Application Support/Code/User/globalStorage/state.vscdb"];
        join [home;
              "Library/Application Support/Code/User/globalStorage/storage.json"];
        join [home;
              "Library/Application Support/Code - Insiders/storage.json"];
        join [home;
              "Library/Application Support/Code - Insiders/User/globalStorage/state.vscdb"];
        join [home;
              "Library/Application Support/Code - Insiders/User/globalStorage/storage.json"] ]
  | win32 =>
      match env_APPDATA host with
      | Some appData =>
          if JS.truthy appData then
            [ join [appData; "Code/storage.json"];
              join [appData; "Code/User/globalStorage/state.vscdb"];
              join [appData; "Code/User/globalStorage/storage.json"] ]
          else []
      | None => []
      end
  | linux =>
      [ join [home; ".config/Code/storage.json"];
        join [home; ".config/Code/User/globalStorage/state.vscdb"];
        join [home; ".config/Code/User/globalStorage/storage.json"] ]
  | other_platform => []
  end.

(** [findStoragePath] *)
Definition findStoragePath (fs : FS.t) : option string :=
  first_existing possiblePaths fs.

(** [workspacePath.replace('file://', '')]: only strings have the method. *)
Definition replace_file_scheme (v : JVal) : Res string :=
  match v with
  | JStr s => Ok (JS.remove_first "file://" s)
  | _ => Throw "workspacePath.replace is not a function"
  end.

Definition decode (s : string) : Res string :=
  match JS.decodeURIComponent s with
  | Some d => Ok d
  | None => Throw "URI malformed"
  end.

(** [parseJsonStorage] *)
Definition parseJsonStorage (filePath : string) (fs : FS.t) : option string :=
  let attempt : Res (option string) :=
    match FS.readFileSync filePath fs with
    | Throw e => Throw e
    | Ok content =>
        match FS.JSON_parse content with
        | Throw e => Throw e
        | Ok data =>
            match field_of data "openedPathsList" with
            | Throw e => Throw e
            | Ok openedPathsList =>
                let opened :=
                  get_field
                    (get_first (get_field openedPathsList "entries"))
                    "folderUri" in
                let window :=
                  get_field
                    (get_field (get_field (Some data) "windowState")
                               "lastActiveWindow")
                    "folderUri" in
                let workspacePath :=
                  if is_truthy opened then opened
                  else if is_truthy window then window
                  else None in
                match workspacePath with
                | Some v =>
                    if truthy v then
                      match replace_file_scheme v with
                      | Throw e => Throw e
                      | Ok stripped =>
                          match decode stripped with
                          | Throw e => Throw e
                          | Ok d => Ok (Some d)
                          end
                      end
                    else Ok None
                | None => Ok None
                end
            end
        end
    end in
  match attempt with
  | Ok r => r
  | Throw _ => None
  end.

(** The rows the query selects: keys that contain one of the three words
    (LIKE ignores the case of ASCII letters), by key descending. *)
Definition selected (r : FS.Row) : bool :=
  let k := JS.toLowerCase (FS.key r) in
  JS.includes k "workspace" || JS.includes k "window"
  || JS.includes k "folder".

Fixpoint insert_desc (r : FS.Row) (l : list FS.Row) : list FS.Row :=
  match l with
  | [] => [r]
  | x :: l' =>
      if String.leb (FS.key x) (FS.key r) then r :: l
      else x :: insert_desc r l'
  end.

Definition query (table : list FS.Row) : list FS.Row :=
  fold_right insert_desc [] (filter selected table).

(** What one row contributes: [Some p] when the loop assigns [p] and
    breaks, [None] when it goes on to the next row. *)
Definition scan_row (row : FS.Row) : option string :=
  match FS.value row with
  | FS.Falsy => None
  | FS.NotJson => None
  | FS.NotObject => None   (* no such fields, or a TypeError on [null] *)
  | FS.Document o =>
      let data := Some (JObj o) in
      let folderUri := get_field data "folderUri" in
      if is_truthy folderUri then
        match folderUri with
        | Some v =>
            match replace_file_scheme v with
            | Ok p => Some p
            | Throw _ => None
            end
        | None => None
        end
      else
        let uri :=
          get_field
            (get_first (get_field (get_field data "workspace") "folders"))
            "uri" in
        if is_truthy uri then
          match uri with
          | Some v =>
              match replace_file_scheme v with
              | Ok p => Some p
              | Throw _ => None
              end
          | None => None
          end
        else None
  end.

Fixpoint scan_rows (rows : list FS.Row) : option string :=
  match rows with
  | [] => None
  | row :: rest =>
      match scan_row row with
      | Some p => Some p
      | None => scan_rows rest
      end
  end.

(** [parseSqliteStorage].  An exception of [decodeURIComponent] is
    raised inside the callback of [db.all], after the loop and outside its
    [try]: nothing catches it and the promise is never settled. *)
Definition parseSqliteStorage (filePath : string) (fs : FS.t)
  : Settled (option string) :=
  match FS.entries fs !! filePath with
  | Some (FS.File (FS.Vscdb (Some table))) =>
      match scan_rows (query table) with
      | Some workspacePath =>
          if JS.truthy workspacePath then
            match JS.decodeURIComponent workspacePath with
            | Some d => Resolved (Some d)
            | None => Uncaught "URI malformed"
            end
          else Resolved None
      | None => Resolved None
      end
  | _ => Resolved None
  end.

(** [getWorkspace] *)
Definition getWorkspace (fs : FS.t) : Settled (option string) :=
  match findStoragePath fs with
  | None => Resolved None
  | Some storagePath =>
      if negb (JS.truthy storagePath) then Resolved None
      else if JS.endsWith storagePath ".json"
      then Resolved (parseJsonStorage storagePath fs)
      else if JS.endsWith storagePath ".vscdb"
      then parseSqliteStorage storagePath fs
      else Resolved None
  end.

End Service.

End VSCode.

(** *** CursorService ([src/services/cursor.ts]) *)

Module Cursor.

Import Json.

Section Service.

Variable host : Host.

Definition possiblePaths : list string :=
  let home := homedir host in
  let join := path_join host in
  match platform host with
  | darwin =>
      [ join [home; "Library/Application Support/Cursor/storage.json"];
        join [home;
              "Library/Application Support/Cursor/User/globalStorage/storage.json"] ]
  | win32 =>
      match env_APPDATA host with
      | Some appData =>
          if JS.truthy appData then
            [ join [appData; "Cursor/storage.json"];
              join [appData; "Cursor/User/globalStorage/storage.json"] ]
          else []
      | None => []
      end
  | linux =>
      [ join [home; ".config/Cursor/storage.json"];
        join [home; ".config/Cursor/User/globalStorage/storage.json"] ]
  | other_platform => []
  end.

(** [findStoragePath] *)
Definition findStoragePath (fs : FS.t) : option string :=
  first_existing possiblePaths fs.

(** [parseCursorJson] *)
Definition parseCursorJson (content : FS.Content) : option string :=
  match FS.JSON_parse content with
  | Throw _ => None
  | Ok data =>
      match field_of data "windowsState" with
      | Throw _ => None
      | Ok windowState =>
          let folder :=
            get_field (get_field windowState "lastActiveWindow") "folder" in
          if is_truthy folder then
            match folder with
            | Some v => JS.decodeURIComponent (toString v)
            | None => None
            end
          else None
      end
  end.

(** [getWorkspace] *)
Definition getWorkspace (fs : FS.t) : option string :=
  match findStoragePath fs with
  | None => None
  | Some storagePath =>
      if negb (JS.truthy storagePath) then None
      else
        match FS.readFileSync storagePath fs with
        | Throw _ => None
        | Ok content => parseCursorJson content
        end
  end.

End Service.

End Cursor.

(** ** WorkspaceCache ([src/utils/workspace-cache.ts]) *)

Module WorkspaceCache.

Import Json.

Local Open Scope eff_scope.

Definition fs_exists (p : string) : Eff FS.t bool :=
  fun fs => (fs, Ok (FS.existsSync p fs)).

Definition fs_read (p : string) : Eff FS.t FS.Content :=
  fun fs => (fs, FS.readFileSync p fs).

(** [cleanWorkspacePath] *)
Definition cleanWorkspacePath (workspace : option string) : option string :=
  match workspace with
  | None => None
  | Some workspace =>
      if negb (JS.truthy workspace) then None
      else
        let cleanPath := JS.remove_prefix "file://" workspace in
        match JS.decodeURIComponent cleanPath with
        | Some decoded => Some decoded
        | None => Some cleanPath
        end
  end.

Section Cache.

Variable host : Host.

Definition CACHE_DIR : string :=
  path_join host [homedir host; ".coffic"; "git-helper"].

Definition CACHE_FILE : string :=
  path_join host [CACHE_DIR; "workspace.json"].

Definition CURRENT_APP_KEY : string := "_current_app_".

(** The first two steps of both save methods: make sure the directory
    exists, then read the present cache ([{}] when the file is missing
    or does not parse). *)
Definition ensureCacheDir : Eff FS.t unit :=
  let* present := fs_exists CACHE_DIR in
  if negb present then FS.mkdirSync CACHE_DIR else ret tt.

(** [cacheData[k]] on what [JSON.parse] returned. *)
Definition get_member (cacheData : JVal) (k : string) : Res Value :=
  match cacheData with
  | JObj o => Ok (get_property o k)
  | JNull => Throw ("Cannot read properties of null (reading '" +:+ k +:+ "')")
  | _ => Ok (read_member host cacheData k)
  end.

(** [cacheData[k] = v], as [JSON.stringify] shows [cacheData] afterwards. *)
Definition set_member (cacheData : JVal) (k : string) (v : JVal) : Res JVal :=
  match cacheData with
  | JObj o => Ok (JObj (set_property o k v))
  | JNull => Throw ("Cannot set properties of null (setting '" +:+ k +:+ "')")
  | _ => write_member host cacheData k v
  end.

Definition readCacheData : Eff FS.t JVal :=
  let* present := fs_exists CACHE_FILE in
  if present then
    let* content := fs_read CACHE_FILE in
    match FS.JSON_parse content with
    | Ok parsed => ret parsed
    | Throw _ => ret (JObj ∅)
    end
  else ret (JObj ∅).

(** [saveCurrentApp] *)
Definition saveCurrentApp (appId : string) : Eff FS.t unit :=
  try_catch
    (await ensureCacheDir in
     let* cacheData := readCacheData in
     let* cacheData :=
       of_result (set_member cacheData CURRENT_APP_KEY (JStr appId)) in
     FS.writeFileSync CACHE_FILE (FS.JSON_stringify cacheData))
    (fun _ => ret tt).

(** [getCurrentApp]: [cacheData[CURRENT_APP_KEY] || ''] *)
Definition getCurrentApp (fs : FS.t) : Value :=
  if negb (FS.existsSync CACHE_FILE fs) then Data (JStr "")
  else
    match FS.readFileSync CACHE_FILE fs with
    | Throw _ => Data (JStr "")
    | Ok content =>
        match FS.JSON_parse content with
        | Throw _ => Data (JStr "")
        | Ok cacheData =>
            match get_member cacheData CURRENT_APP_KEY with
            | Throw _ => Data (JStr "")
            | Ok current =>
                if value_truthy current then current else Data (JStr "")
            end
        end
    end.

(** [saveWorkspace] *)
Definition saveWorkspace (appId : string) (workspace : option string)
  : Eff FS.t unit :=
  try_catch
    (await ensureCacheDir in
     let cleanWorkspace := cleanWorkspacePath workspace in
     let* cacheData := readCacheData in
     let* cacheData :=
       of_result
         (set_member cacheData appId
            (match cleanWorkspace with Some p => JStr p | None => JNull end)) in
     FS.writeFileSync CACHE_FILE (FS.JSON_stringify cacheData))
    (fun _ => ret tt).

(** [appId || cacheData[CURRENT_APP_KEY] || '']: the member is read only
    when no identifier was given. *)
Definition actualAppId_of (appId : option string) (cacheData : JVal)
  : Res Value :=
  if JS.truthy (JS.or_empty appId) then Ok (Data (JStr (JS.or_empty appId)))
  else
    match get_member cacheData CURRENT_APP_KEY with
    | Throw e => Throw e
    | Ok current =>
        Ok (if value_truthy current then current else Data (JStr ""))
    end.

(** [getWorkspace] *)
Definition getWorkspace (appId : option string) (fs : FS.t) : option string :=
  if negb (FS.existsSync CACHE_FILE fs) then None
  else
    match FS.readFileSync CACHE_FILE fs with
    | Throw _ => None
    | Ok content =>
        match FS.JSON_parse content with
        | Throw _ => None
        | Ok cacheData =>
            match actualAppId_of appId cacheData with
            | Throw _ => None
            | Ok actualAppId =>
                if negb (value_truthy actualAppId) then None
                else
                  match get_member cacheData (toPropertyKey actualAppId) with
                  | Throw _ => None
                  | Ok found =>
                      if value_truthy found then
                        match found with
                        | Data (JStr workspace) =>
                            if negb (FS.existsSync workspace fs) then None
                            else Some workspace
                        | _ => None   (* [existsSync] is false on what is
                                         not a path *)
                        end
                      else None
                  end
            end
        end
    end.

(** The cache can be written and read back: its directory is there or can
    be made, nothing stands in the way of the file, and the file, when
    there, holds a JSON object or nothing that [JSON.parse] accepts (which
    the save methods replace by [{}]). *)
Definition usable (fs : FS.t) : Prop :=
  CACHE_DIR <> CACHE_FILE
  /\ (FS.entries fs !! CACHE_DIR = Some FS.Dir
      \/ (FS.entries fs !! CACHE_DIR = None
          /\ (CACHE_DIR ∉ FS.write_denied fs)))
  /\ (CACHE_FILE ∉ FS.write_denied fs)
  /\ FS.entries fs !! CACHE_FILE <> Some FS.Dir
  /\ (forall v : JVal,
        FS.entries fs !! CACHE_FILE <> Some (FS.File (FS.JsonValue v))).

(** What [saveWorkspace] stores for a workspace. *)
Definition stored (workspace : option string) : JVal :=
  match cleanWorkspacePath workspace with
  | Some p => JStr p
  | None => JNull
  end.

End Cache.

End WorkspaceCache.

(** ** The plugin ([src/index.ts]) *)

Module Plugin.

Import Json Types.

Local Open Scope eff_scope.

(** What one activation of [executeAction] ends in: a result, the
    recursive call [this.executeAction(action)], or an await that never
    returns because the promise it waits for is never settled. *)
Inductive Outcome :=
| Done (r : ActionResult)
| Again
| Hang.

Section Plugin.

Context {V : Type}.
Variable G : Git.SimpleGit (World V).
Variable host : Host.

(** The world with the calls made on git handles, and the number of times
    an IDE service was asked for the workspace during execution (kept
    for the statements below; the program does not read it). *)
Record PState := { st : Git.St (World V); live_lookups : nat }.

Definition the_fs (s : PState) : FS.t := fs (Git.world (st s)).

Definition lift_git {A : Type} (m : Eff (Git.St (World V)) A) : Eff PState A :=
  fun s =>
    let '(st', r) := m (st s) in
    ({| st := st'; live_lookups := live_lookups s |}, r).

Definition lift_fs {A : Type} (m : Eff FS.t A) : Eff PState A :=
  fun s =>
    let '(fs', r) := m (the_fs s) in
    ({| st := {| Git.world := {| fs := fs'; vcs := vcs (Git.world (st s)) |};
                 Git.calls := Git.calls (st s) |};
        live_lookups := live_lookups s |}, r).

Definition read_fs {A : Type} (f : FS.t -> A) : Eff PState A :=
  fun s => (s, Ok (f (the_fs s))).

Definition count_lookup : Eff PState unit :=
  fun s => ({| st := st s; live_lookups := S (live_lookups s) |}, Ok tt).

(** [currentApp.toLowerCase()] *)
Definition toLowerCase (currentApp : Value) : Eff PState string :=
  match currentApp with
  | Data (JStr app) => ret (JS.toLowerCase app)
  | _ => fun s => (s, Throw "currentApp.toLowerCase is not a function")
  end.

Definition isGitRepository := Git.isGitRepository world_existsSync G host.
Definition getStatus := Git.getStatus world_existsSync G host.
Definition getChangesDescription := Git.getChangesDescription G.
Definition commitAndPush := Git.commitAndPush world_existsSync G host.

Definition unavailable : ActionResult :=
  {| message := "无法获取工作区路径，请重新打开IDE" |}.

(** The [switch] on the action id. *)
Definition dispatch (action : Action) (gitService : Git.GitService)
  : Eff (Git.St (World V)) ActionResult :=
  if String.eqb (id action) "git_status" then
    let* isRepo := isGitRepository gitService in
    if negb isRepo then ret {| message := "当前工作区不是Git仓库" |}
    else
      let* status := getStatus gitService in
      let* changesDescription := getChangesDescription gitService in
      let message := "分支: " +:+ branch status +:+ JS.newline in
      let message :=
        message +:+ "变更文件数: " +:+ JS.of_nat (changedFilesCount status)
                +:+ JS.newline in
      let message :=
        if hasChanges status
        then message +:+ "变更详情: " +:+ changesDescription +:+ JS.newline
        else message in
      let message :=
        if hasUnpushedCommits status
        then message +:+ "有未推送的提交" +:+ JS.newline
        else message in
      ret {| message := message |}
  else if String.eqb (id action) "git_commit_push" then
    let* isRepo := isGitRepository gitService in
    if negb isRepo then ret {| message := "当前工作区不是Git仓库" |}
    else
      let* result := commitAndPush gitService in
      ret {| message := Git.message result |}
  else ret {| message := "未知的动作: " +:+ id action |}.

(** One activation of [executeAction], up to its result or its recursive
    call. *)
Definition executeAction_body (action : Action) : Eff PState Outcome :=
  try_catch
    (let* workspace := read_fs (WorkspaceCache.getWorkspace host None) in
     match workspace with
     | None =>
         let* currentApp := read_fs (WorkspaceCache.getCurrentApp host) in
         if value_truthy currentApp then
           let* lower := toLowerCase currentApp in
           let isVSCode := JS.includes lower "code" || JS.includes lower "vscode" in
           let isCursor := JS.includes lower "cursor" in
           if isVSCode || isCursor then
             await count_lookup in
             let* lookup :=
               read_fs (fun fs =>
                 if isCursor then Resolved (Cursor.getWorkspace host fs)
                 else VSCode.getWorkspace host fs) in
             match lookup with
             | Uncaught _ => ret Hang
             | Resolved freshWorkspace =>
                 if JS.truthy (JS.or_empty freshWorkspace) then
                   await lift_fs
                           (WorkspaceCache.saveWorkspace host
                              (toPropertyKey currentApp) freshWorkspace) in
                   ret Again
                 else ret (Done unavailable)
             end
           else ret (Done unavailable)
         else ret (Done unavailable)
     | Some workspace =>
         let* w := (fun s => (s, Ok (Git.world (st s)))) in
         let gitService := Git.new_GitService G workspace w in
         let* r := lift_git (dispatch action gitService) in
         ret (Done r)
     end)
    (fun e =>
       ret (Done {| message := "执行失败: " +:+ JS.or_else e "未知错误" |})).

(** [executeAction]: activations follow one another as long as the body
    ends in its recursive call; [None] when the promise is not settled
    within [fuel] activations or waits on one that is never settled. *)
Fixpoint executeAction (fuel : nat) (action : Action) (s : PState)
  : option (PState * ActionResult) :=
  match fuel with
  | O => None
  | S fuel' =>
      match executeAction_body action s with
      | (s', Ok (Done r)) => Some (s', r)
      | (s', Ok Again) => executeAction fuel' action s'
      | (_, Ok Hang) => None
      | (_, Throw _) => None   (* the body catches every exception *)
      end
  end.

(** The state in which the activation after the first [n] runs. *)
Fixpoint activations (n : nat) (action : Action) (s : PState) : PState :=
  match n with
  | O => s
  | S k => fst (executeAction_body action (activations k action s))
  end.

End Plugin.

End Plugin.

(** ** Vocabulary of the statements and fixtures *)

Module Fixtures.

Import Json.

(** A candidate of the Insiders build. *)
Definition is_insiders (p : string) : bool := JS.includes p "Code - Insiders".

(** Every Insiders candidate of the list comes before every other one. *)
Definition insiders_first (l : list string) : Prop :=
  forall (i j : nat) (p q : string),
    l !! i = Some p -> l !! j = Some q ->
    is_insiders p = true -> is_insiders q = false -> i < j.

(** [r] is the first path of [l] that exists, or nothing when none does. *)
Definition first_pick (l : list string) (fs : FS.t) (r : option string)
  : Prop :=
  match r with
  | Some p =>
      exists before after : list string,
        l = before ++ p :: after
        /\ FS.existsSync p fs = true
        /\ Forall (fun q => FS.existsSync q fs = false) before
  | None => Forall (fun q => FS.existsSync q fs = false) l
  end.

(** The darwin candidates of VSCode below the home directory, stable build
    and Insiders build. *)
Definition darwin_stable : list string :=
  ["Library/Application Support/Code/storage.json";
   "Library/Application Support/Code/User/globalStorage/state.vscdb";
   "Library/Application Support/Code/User/globalStorage/storage.json"].

Definition darwin_insiders : list string :=
  ["Library/Application Support/Code - Insiders/storage.json";
   "Library/Application Support/Code - Insiders/User/globalStorage/state.vscdb";
   "Library/Application Support/Code - Insiders/User/globalStorage/storage.json"].

Definition mac : Host :=
  {| platform := darwin;
     homedir := "/Users/u";
     env_APPDATA := None;
     path_join := join_with "/";
     read_member := reference_read;
     write_member := reference_write |}.

Definition storage_doc (field folder : string) : FS.Node :=
  FS.File (FS.JsonDoc
    {[ "windowsState" :=
         JObj {[ "lastActiveWindow" := JObj {[ field := JStr folder ]} ]} ]}).

(** Both the stable and the Insiders build left a [storage.json]. *)
Definition fs_both_builds : FS.t :=
  {| FS.entries :=
       <["/Users/u/Library/Application Support/Code/storage.json"
           := FS.File FS.Unparsable]>
       (<["/Users/u/Library/Application Support/Code - Insiders/storage.json"
           := FS.File FS.Unparsable]> ∅);
     FS.write_denied := ∅ |}.

(** A directory whose name contains a percent escape. *)
Definition fs_percent_dir : FS.t :=
  {| FS.entries := <["/tmp/a%20b" := FS.Dir]> ∅; FS.write_denied := ∅ |}.

(** The cache knows the current application but no workspace for it, and
    Cursor last had a folder open that is no longer on disk. *)
Definition fs_stale_folder : FS.t :=
  {| FS.entries :=
       <["/home/u/.coffic/git-helper" := FS.Dir]>
       (<["/home/u/.coffic/git-helper/workspace.json"
            := FS.File (FS.JsonDoc {[ "_current_app_" := JStr "Cursor" ]})]>
       (<["/home/u/.config/Cursor/storage.json"
            := storage_doc "folder" "/home/u/projects/gone"]> ∅));
     FS.write_denied := ∅ |}.

(** The same file system once the stale folder has been cached again. *)
Definition fs_recached : FS.t :=
  fst (WorkspaceCache.saveWorkspace Sim.host "Cursor"
         (Some "/home/u/projects/gone") fs_stale_folder).

Definition plugin_state (fs : FS.t) (n : nat)
  : @Plugin.PState (gmap string Sim.Repo) :=
  {| Plugin.st := Sim.start {| fs := fs; vcs := ∅ |};
     Plugin.live_lookups := n |}.

End Fixtures.

(** ** The action list ([getActions] of [src/index.ts]) *)

Module Actions.

Import Json Types.

Local Open Scope eff_scope.

Section Actions.

Context {V : Type}.
Variable G : Git.SimpleGit (World V).
Variable host : Host.

(** [String.prototype.toLowerCase] on the keyword and on the texts it is
    searched in.  These are arbitrary text, so the full case mapping of the
    runtime matters; it is a parameter. *)
Variable toLowerCase : string -> string.

Abbreviation PState := (@Plugin.PState V).

Definition status_action (gitStatus : GitStatus) : Action :=
  {| id := "git_status";
     title := "Git状态";
     description :=
       "分支: " +:+ branch gitStatus +:+ ", 变更文件: "
       +:+ JS.of_nat (changedFilesCount gitStatus)
       +:+ (if hasUnpushedCommits gitStatus then ", 有未推送提交" else "");
     icon := Some "📊" |}.

Definition commit_action (gitStatus : GitStatus) : Action :=
  {| id := "git_commit_push";
     title := "自动提交并推送更改";
     description :=
       "将当前工作区的" +:+ JS.of_nat (changedFilesCount gitStatus)
       +:+ "个变更文件提交并推送到远程仓库";
     icon := Some "🚀" |}.

(** The list built from the status, before the keyword is applied. *)
Definition actions_of (gitStatus : GitStatus) : list Action :=
  if isRepo gitStatus then
    status_action gitStatus
    :: (if hasChanges gitStatus then [commit_action gitStatus] else [])
  else [].

(** The predicate of [actions.filter]. *)
Definition matches (lowerKeyword : string) (action : Action) : bool :=
  JS.includes (toLowerCase (title action)) lowerKeyword
  || JS.includes (toLowerCase (description action)) lowerKeyword.

(** The [try] block that reads the status; whatever it throws is dropped
    and the default status stays. *)
Definition read_status (workspace : string) : Eff PState GitStatus :=
  try_catch
    (let* w := (fun s => (s, Ok (Git.world (Plugin.st s)))) in
     let gitService := Git.new_GitService G workspace w in
     let* isRepo := Plugin.lift_git (Plugin.isGitRepository G host gitService) in
     if isRepo then Plugin.lift_git (Plugin.getStatus G host gitService)
     else ret Git.defaultStatus)
    (fun _ => ret Git.defaultStatus).

(** [getActions].  [Ok (Resolved l)] is the list the promise resolves
    to and [Throw e] a rejection; [Ok (Uncaught e)] is the run in which
    the workspace lookup lets [e] out into the event loop: nothing is
    thrown to the caller and the promise is never settled. *)
Definition getActions (context : PluginContext)
  : Eff PState (Settled (list Action)) :=
  let lowerApp := JS.toLowerCase (overlaidApp context) in
  let isVSCode := JS.includes lowerApp "code" || JS.includes lowerApp "vscode" in
  let isCursor := JS.includes lowerApp "cursor" in
  if negb isVSCode && negb isCursor then ret (Resolved [])
  else
    await Plugin.lift_fs
            (WorkspaceCache.saveCurrentApp host (overlaidApp context)) in
    let* lookup :=
      Plugin.read_fs (fun fs =>
        if isCursor then Resolved (Cursor.getWorkspace host fs)
        else VSCode.getWorkspace host fs) in
    match lookup with
    | Uncaught e => ret (Uncaught e)
    | Resolved workspace =>
        if JS.truthy (JS.or_empty workspace) then
          await Plugin.lift_fs
                  (WorkspaceCache.saveWorkspace host (overlaidApp context)
                     workspace) in
          let* gitStatus := read_status (JS.or_empty workspace) in
          let actions := actions_of gitStatus in
          if JS.truthy (keyword context) then
            let lowerKeyword := toLowerCase (keyword context) in
            ret (Resolved (filter (fun a => matches lowerKeyword a) actions))
          else ret (Resolved actions)
        else ret (Resolved [])
    end.

End Actions.

End Actions.

(** ** Further vocabulary *)

Module Notions.

Import Json Git.

(** Only queries: no [add], [commit] or [push]. *)
Definition queries_only (cs : list GitCall) : Prop :=
  Forall (fun c => is_mutating c = false) cs.

(** The calls of a complete run of [commitAndPush]. *)
Definition full_run (msg b : string) : list GitCall :=
  [probe; CallStatus; CallStatus; CallAdd "."; CallCommit msg;
   CallGetRemotes; CallPush "origin" b].

(** One clause of the changes description. *)
Definition clause (label : string) (n : nat) : list string :=
  if (0 <? n)%nat then [label +:+ ": " +:+ JS.of_nat n +:+ "个文件"] else [].

(** The clauses of the non-empty categories, in the order of the
    description. *)
Definition clauses (st : StatusResult) : list string :=
  clause "新增" (length (created st))
  ++ clause "修改" (length (modified st))
  ++ clause "删除" (length (deleted st))
  ++ clause "重命名" (length (renamed st))
  ++ clause "未跟踪" (length (not_added st)).

(** The object the cache file holds ([{}] when the file is missing or
    holds no object). *)
Definition cache_doc (host : Host) (fs : FS.t) : JObject :=
  match FS.entries fs !! WorkspaceCache.CACHE_FILE host with
  | Some (FS.File (FS.JsonDoc o)) => o
  | _ => ∅
  end.

(** What a write of the binding of [k] to [v] into a usable cache leaves
    behind: the document with that binding, a cache that is still usable,
    and every other path as it was. *)
Definition written (host : Host) (k : string) (v : JVal) (fs fs' : FS.t)
  : Prop :=
  cache_doc host fs' = <[k := v]> (cache_doc host fs)
  /\ FS.entries fs' !! WorkspaceCache.CACHE_FILE host
     = Some (FS.File (FS.JsonDoc (<[k := v]> (cache_doc host fs))))
  /\ WorkspaceCache.usable host fs'
  /\ FS.entries fs' !! WorkspaceCache.CACHE_DIR host = Some FS.Dir
  /\ (forall p, p <> WorkspaceCache.CACHE_DIR host ->
                p <> WorkspaceCache.CACHE_FILE host ->
                FS.entries fs' !! p = FS.entries fs !! p).

(** The application identifier selects one of the two IDE services. *)
Definition supported (app : string) : bool :=
  let lower := JS.toLowerCase app in
  JS.includes lower "code" || JS.includes lower "vscode"
  || JS.includes lower "cursor".

(** What the service selected by [app] answers. *)
Definition locate (host : Host) (app : string) (fs : FS.t)
  : Settled (option string) :=
  if JS.includes (JS.toLowerCase app) "cursor"
  then Resolved (Cursor.getWorkspace host fs)
  else VSCode.getWorkspace host fs.

(** A row the scan of [parseSqliteStorage] passes over: no value, a value
    that is not JSON or is JSON for something else than an object, or a
    document that has no [workspace] field and whose [folderUri] is not a
    non-empty string. *)
Definition passed_over (r : FS.Row) : Prop :=
  match FS.value r with
  | FS.Falsy | FS.NotJson | FS.NotObject => True
  | FS.Document o =>
      (forall s : string, o !! "folderUri" = Some (JStr s) -> s = "")
      /\ o !! "workspace" = None
  end.

(** The summary [getActions] builds its list from, given what the IDE
    service found: the zeroed default, or what [getStatus] returns for the
    service on the workspace found, in the world [w] and after the calls
    [cs] and those of the repository probe. *)
Definition summary_seen {V : Type} (G : SimpleGit (World V)) (host : Host)
  (found : Settled (option string)) (w : World V) (cs : list GitCall)
  (gs : Types.GitStatus) : Prop :=
  gs = defaultStatus
  \/ exists (workspace : string) (cs1 : list GitCall),
       found = Resolved (Some workspace)
       /\ snd (getStatus world_existsSync G host
                 (new_GitService G workspace w)
                 {| world := w; calls := cs ++ cs1 |}) = Ok gs.

(** What a read of the cache gives for a stored path [q]. *)
Definition checked (q : string) (fs : FS.t) : option string :=
  if JS.truthy q && FS.existsSync q fs then Some q else None.

End Notions.

(** ** Further fixtures *)

Module Scenarios.

Import Json.



(** Cursor has the repository [/w] open; nothing is cached yet. *)
Definition fs_project : FS.t :=
  {| FS.entries :=
       <["/home/u/.config/Cursor/storage.json"
           := Fixtures.storage_doc "folder" "file:///w"]>
       (<["/w" := FS.Dir]> (<["/w/.git" := FS.Dir]> ∅));
     FS.write_denied := ∅ |}.

(** The same with a cache that only knows the current application. *)
Definition fs_pointer_only : FS.t :=
  {| FS.entries :=
       <["/home/u/.coffic/git-helper" := FS.Dir]>
       (<["/home/u/.coffic/git-helper/workspace.json"
            := FS.File (FS.JsonDoc {[ "_current_app_" := JStr "Cursor" ]})]>
          (FS.entries fs_project));
     FS.write_denied := ∅ |}.

(** The same with the workspace cached. *)
Definition fs_cached : FS.t :=
  {| FS.entries :=
       <["/home/u/.coffic/git-helper" := FS.Dir]>
       (<["/home/u/.coffic/git-helper/workspace.json"
            := FS.File (FS.JsonDoc (<[ "Cursor" := JStr "/w" ]>
                                      {[ "_current_app_" := JStr "Cursor" ]}))]>
          (FS.entries fs_project));
     FS.write_denied := ∅ |}.

(** The project with a cache file that holds the JSON value [null]. *)
Definition fs_null_cache : FS.t :=
  {| FS.entries :=
       <["/home/u/.coffic/git-helper" := FS.Dir]>
       (<["/home/u/.coffic/git-helper/workspace.json"
            := FS.File (FS.JsonValue JNull)]>
          (FS.entries fs_project));
     FS.write_denied := ∅ |}.

(** The project with a cache file that cannot be written. *)
Definition fs_read_only : FS.t :=
  {| FS.entries := FS.entries fs_pointer_only;
     FS.write_denied := {[ "/home/u/.coffic/git-helper/workspace.json" ]} |}.

(** A VSCode [storage.json] whose history and window state disagree. *)
Definition vscode_doc : JObject :=
  <[ "openedPathsList" :=
       JObj {[ "entries" :=
                 JArr [JObj {[ "folderUri" := JStr "file:///w" ]}] ]} ]>
  {[ "windowState" :=
       JObj {[ "lastActiveWindow" :=
                 JObj {[ "folderUri" := JStr "file:///elsewhere" ]} ]} ]}.

Definition fs_vscode : FS.t :=
  {| FS.entries :=
       <["/home/u/.config/Code/storage.json" := FS.File (FS.JsonDoc vscode_doc)]> ∅;
     FS.write_denied := ∅ |}.

(** The state database of VSCode, in insertion order.  The first row is
    not selected by the query; of the others, those whose key is above
    [windowsState] have no value, are not JSON, are JSON for a list, say
    nothing about a folder or give a number for it; the one below names
    another folder. *)
Definition folder_row : FS.Row :=
  {| FS.key := "windowsState";
     FS.value := FS.Document {[ "folderUri" := JStr "file:///w" ]} |}.

Definition item_table : list FS.Row :=
  [ {| FS.key := "history.recentlyOpenedPathsList";
       FS.value := FS.Document {[ "folderUri" := JStr "file:///ignored" ]} |};
    {| FS.key := "window.last";
       FS.value := FS.Document {[ "folderUri" := JStr "file:///older" ]} |};
    folder_row;
    {| FS.key := "workbench.folder.layout";
       FS.value := FS.Document {[ "visible" := JBool true ]} |};
    {| FS.key := "workbench.folder.width";
       FS.value := FS.Document {[ "folderUri" := JNum 5 ]} |};
    {| FS.key := "workspace.list"; FS.value := FS.NotObject |};
    {| FS.key := "workspace.recent"; FS.value := FS.NotJson |};
    {| FS.key := "workspaceState"; FS.value := FS.Falsy |} ].

Definition fs_vscdb : FS.t :=
  {| FS.entries :=
       <["/home/u/.config/Code/User/globalStorage/state.vscdb"
           := FS.File (FS.Vscdb (Some item_table))]> ∅;
     FS.write_denied := ∅ |}.

(** Cursor has a folder open whose URI carries an escaped percent sign. *)
Definition fs_escaped : FS.t :=
  {| FS.entries :=
       <["/home/u/.config/Cursor/storage.json"
           := Fixtures.storage_doc "folder" "file:///tmp/a%2520b"]> ∅;
     FS.write_denied := ∅ |}.

(** The plugin over a file system, with the repository of
    [Sim.dirty_repo] at [/w]. *)
Definition plugin_on (fs : FS.t) : @Plugin.PState (gmap string Sim.Repo) :=
  {| Plugin.st :=
       Sim.start {| fs := fs;
                    vcs := <["/w" := Sim.dirty_repo [Sim.origin] ∅]> ∅ |};
     Plugin.live_lookups := 0 |}.

Definition status_request : Types.Action :=
  {| Types.id := "git_status"; Types.title := "Git状态";
     Types.description := ""; Types.icon := None |}.

Definition in_cursor : Types.PluginContext :=
  {| Types.keyword := ""; Types.overlaidApp := "Cursor" |}.

Definition in_terminal : Types.PluginContext :=
  {| Types.keyword := "git"; Types.overlaidApp := "Terminal" |}.

End Scenarios.

(** * Properties *)

(** ** Strings and path normalisation *)

Module JSFacts.

Import JS.

Lemma strip_prefix_app (p r : string) : strip_prefix p (p +:+ r) = Some r.
Proof.
  induction p as [|c p IH]; simpl; [reflexivity|].
  now rewrite Ascii.eqb_refl.
Qed.

Lemma remove_prefix_absent (p s : string) :
  startsWith s p = false -> remove_prefix p s = s.
Proof.
  unfold startsWith, remove_prefix.
  destruct (strip_prefix p s); [discriminate | reflexivity].
Qed.

(** Decoding has nothing to do on a string without a percent sign. *)
Lemma decode_percent_free (s : string) :
  percent_free s = true -> decodeURIComponent s = Some s.
Proof.
  unfold decodeURIComponent.
  induction s as [|c s IH]; simpl; [reflexivity|].
  intros H. apply andb_prop in H as [Hc Hs].
  apply negb_true_iff in Hc. rewrite Hc, (IH Hs). reflexivity.
Qed.

Lemma clean_plain (p : string) :
  startsWith p "file://" = false -> percent_free p = true ->
  Git.cleanWorkspacePath p = p.
Proof.
  intros Hp Hf. unfold Git.cleanWorkspacePath.
  rewrite (remove_prefix_absent _ _ Hp), (decode_percent_free _ Hf).
  reflexivity.
Qed.

(** The two copies of the normalisation agree. *)
Lemma cache_clean_eq (s : string) :
  WorkspaceCache.cleanWorkspacePath (Some s)
  = if truthy s then Some (Git.cleanWorkspacePath s) else None.
Proof.
  unfold WorkspaceCache.cleanWorkspacePath, Git.cleanWorkspacePath.
  destruct (truthy s); simpl; [|reflexivity].
  destruct (decodeURIComponent _); reflexivity.
Qed.

(** C3, as amended.  Normalising twice is normalising once whenever the
    normalised path no longer starts with [file://] and contains no percent
    sign (every plain file-system path): [GitService.cleanWorkspacePath]
    returns such a path unchanged, and so does
    [WorkspaceCache.cleanWorkspacePath] when the path is not empty. *)
Theorem cleanWorkspacePath_stable_on_plain_paths (s : string) :
  let p := Git.cleanWorkspacePath s in
  startsWith p "file://" = false ->
  percent_free p = true ->
  Git.cleanWorkspacePath p = p
  /\ (p <> "" ->
      WorkspaceCache.cleanWorkspacePath (Some p) = Some p).
Proof.
  intros p Hp Hf. split.
  - now apply clean_plain.
  - intros Hne. rewrite cache_clean_eq, (clean_plain p Hp Hf).
    unfold truthy. destruct (String.eqb_spec p ""); [contradiction|].
    reflexivity.
Qed.

Lemma cleanWorkspacePath_stable_witness :
  Git.cleanWorkspacePath (Git.cleanWorkspacePath "file:///home/u/my%20app")
  = "/home/u/my app".
Proof.
  apply (cleanWorkspacePath_stable_on_plain_paths "file:///home/u/my%20app");
    reflexivity.
Defined.

(** C3, as stated, fails: a doubly encoded path loses one level of encoding
    at each application, and a repeated scheme prefix is removed one at a
    time. *)
Lemma cleanWorkspacePath_not_idempotent :
  Git.cleanWorkspacePath (Git.cleanWorkspacePath "/tmp/a%2520b")
    <> Git.cleanWorkspacePath "/tmp/a%2520b"
  /\ Git.cleanWorkspacePath (Git.cleanWorkspacePath "file://file:///tmp")
    <> Git.cleanWorkspacePath "file://file:///tmp"
  /\ WorkspaceCache.cleanWorkspacePath
       (WorkspaceCache.cleanWorkspacePath (Some "/tmp/a%2520b"))
    <> WorkspaceCache.cleanWorkspacePath (Some "/tmp/a%2520b").
Proof. repeat split; vm_compute; discriminate. Qed.

(** *** Reading back a printed count *)

Lemma of_nat_digits (d : Decimal.uint) :
  all_digits (NilEmpty.string_of_uint d) = true.
Proof. induction d; simpl; auto. Qed.

Lemma digits_from_uint (d : Decimal.uint) (acc : nat) :
  digits_from acc (NilEmpty.string_of_uint d) = Nat.of_uint_acc d acc.
Proof.
  revert acc.
  induction d; intros acc; simpl; try reflexivity;
    rewrite IHd, Nat.tail_mul_spec; f_equal.
Qed.

Lemma digits_from_of_nat (n : nat) : digits_from 0 (of_nat n) = n.
Proof.
  unfold of_nat. rewrite digits_from_uint.
  apply DecimalNat.Unsigned.of_to.
Qed.

Lemma digit_not_space (c : ascii) (k : nat) :
  digit_val c = Some k ->
  is_space c = false /\ Ascii.eqb c "-" = false /\ Ascii.eqb c "+" = false.
Proof.
  unfold digit_val, is_space. intros H.
  destruct ((48 <=? N_of_ascii c)%N && (N_of_ascii c <=? 57)%N) eqn:E;
    [|discriminate].
  apply andb_prop in E as [E1 E2].
  apply N.leb_le in E1. apply N.leb_le in E2.
  repeat split.
  - destruct (N_of_ascii c <=? 13)%N eqn:E3.
    + apply N.leb_le in E3. lia.
    + rewrite andb_false_r. simpl. apply N.eqb_neq. lia.
  - apply Ascii.eqb_neq. intros ->. vm_compute in E1. contradiction.
  - apply Ascii.eqb_neq. intros ->. vm_compute in E1. contradiction.
Qed.

Lemma trimEnd_digits (s : string) :
  all_digits s = true -> trimEnd (s +:+ newline) = s.
Proof.
  induction s as [|c s IH]; simpl; [reflexivity|].
  destruct (digit_val c) as [k|] eqn:E; [|discriminate].
  intros H. rewrite (IH H).
  destruct (digit_not_space c k E) as [-> _]. reflexivity.
Qed.

Lemma trimStart_digits (s : string) :
  all_digits s = true -> trimStart s = s.
Proof.
  destruct s as [|c s]; simpl; [reflexivity|].
  destruct (digit_val c) as [k|] eqn:E; [|discriminate].
  destruct (digit_not_space c k E) as [-> _]. reflexivity.
Qed.

Lemma trim_digits_newline (s : string) :
  all_digits s = true -> trim (s +:+ newline) = s.
Proof.
  intros H. unfold trim.
  destruct s as [|c s]; [reflexivity|].
  replace (trimStart (String c s +:+ newline)) with (String c s +:+ newline).
  - now apply trimEnd_digits.
  - simpl in *. destruct (digit_val c) as [k|] eqn:E; [|discriminate].
    destruct (digit_not_space c k E) as [-> _]. reflexivity.
Qed.

Lemma parseInt_digits (s : string) :
  all_digits s = true ->
  gt_zero (parseInt s) = (0 <? digits_from 0 s)%nat.
Proof.
  intros H. unfold parseInt. rewrite (trimStart_digits s H).
  destruct s as [|c s]; [reflexivity|].
  simpl in H. destruct (digit_val c) as [k|] eqn:E; [|discriminate].
  destruct (digit_not_space c k E) as (_ & -> & ->).
  rewrite E. unfold gt_zero.
  destruct (digits_from 0 (String c s)) as [|m]; reflexivity.
Qed.

(** The count printed by [rev-list --count], read back and compared
    with zero. *)
Lemma count_read_back (n : nat) :
  gt_zero (parseInt (trim (of_nat n +:+ newline))) = (0 <? n)%nat.
Proof.
  assert (H : all_digits (of_nat n) = true) by apply of_nat_digits.
  rewrite (trim_digits_newline _ H).
  rewrite (parseInt_digits _ H), digits_from_of_nat. reflexivity.
Qed.

End JSFacts.

(** ** GitService *)

Module GitFacts.

Import Git.

Ltac unfold_eff :=
  unfold try_catch, bind, ret, fs_existsSync, call_revparse, call_status,
    call_getRemotes, call_raw, call_add, call_commit, call_push,
    query, command in *.

Section Service.

Context {W : Type}.
Variable existsSync : string -> W -> bool.
Variable G : SimpleGit W.
Variable host : Host.

Abbreviation isGitRepository := (Git.isGitRepository existsSync G host).
Abbreviation hasUnpushedCommits := (Git.hasUnpushedCommits G).
Abbreviation getStatus := (Git.getStatus existsSync G host).
Abbreviation getChangesDescription := (Git.getChangesDescription G).
Abbreviation commitAndPush := (Git.commitAndPush existsSync G host).

(** [isGitRepository] never throws, leaves the world alone and issues at
    most the work-tree probe. *)
Lemma isGitRepository_run (svc : GitService) (h : string) (s : St W) :
  git svc = Some h ->
  isGitRepository svc s =
    if existsSync (path_join host [workspacePath svc; ".git"]) (world s)
    then ({| world := world s; calls := calls s ++ [probe] |},
          Ok (match git_revparse G h ["--is-inside-work-tree"] (world s) with
              | Ok _ => true
              | Throw _ => false
              end))
    else (s, Ok false).
Proof.
  intros Hg. unfold Git.isGitRepository. rewrite Hg. unfold_eff.
  destruct (existsSync _ (world s)); simpl; [|reflexivity].
  destruct (git_revparse G h _ (world s)); reflexivity.
Qed.

Lemma getChangesDescription_run (svc : GitService) (h : string) (s : St W) :
  git svc = Some h ->
  getChangesDescription svc s =
    ({| world := world s; calls := calls s ++ [CallStatus] |},
     Ok (match git_status G h (world s) with
         | Ok st => description_of st
         | Throw _ => ""
         end)).
Proof.
  intros Hg. unfold Git.getChangesDescription. rewrite Hg. unfold_eff.
  destruct (git_status G h (world s)); reflexivity.
Qed.

(** C10.  A service constructed with an empty workspace path, or whose
    handle could not be created, has no handle; every operation then
    returns its default without raising and without touching anything:
    [isGitRepository] false, [getStatus] the zeroed summary,
    [getChangesDescription] the empty string and [commitAndPush] a failure
    with the fixed not-initialised message. *)
Theorem uninitialised_service_returns_defaults
  (workspacePath : string) (w : W) (s : St W) :
  workspacePath = ""
  \/ (exists e, simpleGit G (cleanWorkspacePath workspacePath) w = Throw e) ->
  let svc := new_GitService G workspacePath w in
  git svc = None
  /\ isGitRepository svc s = (s, Ok false)
  /\ getStatus svc s =
       (s, Ok {| Types.isRepo := false;
                 Types.branch := "";
                 Types.changedFilesCount := 0;
                 Types.hasChanges := false;
                 Types.hasUnpushedCommits := false |})
  /\ getChangesDescription svc s = (s, Ok "")
  /\ commitAndPush svc s =
       (s, Ok {| success := false; message := "Git服务未初始化" |}).
Proof.
  intros Hinit svc.
  assert (Hnone : git svc = None).
  { subst svc. unfold new_GitService.
    destruct Hinit as [-> | [e He]]; [reflexivity|].
    destruct (JS.truthy workspacePath); [|reflexivity].
    simpl. now rewrite He. }
  split; [exact Hnone|].
  unfold Git.isGitRepository, Git.getStatus, Git.getChangesDescription,
    Git.commitAndPush.
  rewrite Hnone. repeat split.
Qed.

(** C5.  When the status reports no changed file, [commitAndPush] reports
    failure, issues no [add], [commit] or [push], and leaves the world as
    it found it. *)
Theorem commitAndPush_without_changes
  (svc : GitService) (h : string) (w : W) (cs : list GitCall)
  (st : StatusResult) :
  git svc = Some h ->
  git_status G h w = Ok st ->
  count_changes st = 0 ->
  exists (cs' : list GitCall) (msg : string),
    commitAndPush svc {| world := w; calls := cs |}
    = ({| world := w; calls := cs ++ cs' |},
       Ok {| success := false; message := msg |})
    /\ forallb (fun c => negb (is_mutating c)) cs' = true.
Proof.
  intros Hg Hst Hzero. unfold Git.commitAndPush. rewrite Hg.
  unfold try_catch at 1. unfold bind at 1.
  rewrite (isGitRepository_run svc h _ Hg). simpl.
  destruct (existsSync _ w).
  - destruct (git_revparse G h _ w); simpl.
    + unfold_eff. simpl. rewrite Hst, Hzero. simpl.
      exists [probe; CallStatus], "没有需要提交的更改".
      rewrite <- app_assoc. split; reflexivity.
    + exists [probe], "当前目录不是Git仓库". split; reflexivity.
  - exists [], "当前目录不是Git仓库". rewrite app_nil_r. split; reflexivity.
Qed.

Ltac run_commit Hg Hex Hrev Hst Hcount Hadd Hcommit :=
  unfold Git.commitAndPush, Git.isGitRepository, Git.getChangesDescription;
  unfold commit_message in *;
  rewrite Hg; unfold_eff;
  repeat (simpl;
          first [ rewrite Hex | rewrite Hrev | rewrite Hst | rewrite Hcount
                | rewrite Hadd | rewrite Hcommit ]);
  simpl.

Lemma count_nonzero (st : StatusResult) :
  count_changes st <> 0 -> (count_changes st =? 0)%nat = false.
Proof. intros H. now apply Nat.eqb_neq. Qed.

(** C6.  With at least one changed file and no remote, and staging and
    committing going through, [commitAndPush] reports success with the
    not-pushed message; it issued exactly one [commit], whose message is
    the changes description between the fixed prefix and the [[GitOK]]
    marker, and no [push]; the world is the one the commit left. *)
Theorem commitAndPush_without_remote
  (svc : GitService) (h : string) (w w1 w2 : W) (cs : list GitCall)
  (st : StatusResult) (out : string) :
  git svc = Some h ->
  existsSync (path_join host [workspacePath svc; ".git"]) w = true ->
  git_revparse G h ["--is-inside-work-tree"] w = Ok out ->
  git_status G h w = Ok st ->
  count_changes st <> 0 ->
  git_add G h "." w = (w1, Ok tt) ->
  git_commit G h ("自动提交: " +:+ description_of st +:+ " [GitOK]") w1
    = (w2, Ok tt) ->
  git_getRemotes G h w2 = Ok [] ->
  commitAndPush svc {| world := w; calls := cs |}
  = ({| world := w2;
        calls := cs ++ [probe; CallStatus; CallStatus; CallAdd ".";
                        CallCommit ("自动提交: " +:+ description_of st
                                    +:+ " [GitOK]");
                        CallGetRemotes] |},
     Ok {| success := true;
           message := "已成功提交更改，但未找到远程仓库，无法推送" |}).
Proof.
  intros Hg Hex Hrev Hst Hcount Hadd Hcommit Hrem.
  apply count_nonzero in Hcount.
  run_commit Hg Hex Hrev Hst Hcount Hadd Hcommit.
  rewrite Hrem. simpl. repeat rewrite <- app_assoc. reflexivity.
Qed.

(** C7.  Once staging has succeeded, an exception of any later step (the
    commit, listing the remotes, the push) ends the run: no further call is
    issued, the result is a failure whose message is the fixed prefix
    followed by the text of the error (or by the unknown-error text when
    the error has none), and the world is the one the failing step left.
    In particular a push that fails after a successful commit leaves the
    committed world [w2], changed only by what the failed push itself did:
    nothing undoes the commit. *)
Theorem commitAndPush_failure_after_staging
  (svc : GitService) (h : string) (w w1 : W) (cs : list GitCall)
  (st : StatusResult) (out : string) :
  git svc = Some h ->
  existsSync (path_join host [workspacePath svc; ".git"]) w = true ->
  git_revparse G h ["--is-inside-work-tree"] w = Ok out ->
  git_status G h w = Ok st ->
  count_changes st <> 0 ->
  git_add G h "." w = (w1, Ok tt) ->
  let msg := "自动提交: " +:+ description_of st +:+ " [GitOK]" in
  let failure (e : string) : Res SyncResult :=
    Ok {| success := false;
          message := "提交并推送失败: " +:+ JS.or_else e "未知错误" |} in
  let committed : list GitCall :=
    cs ++ [probe; CallStatus; CallStatus; CallAdd "."; CallCommit msg] in
  (forall (w2 : W) (e : string),
      git_commit G h msg w1 = (w2, Throw e) ->
      commitAndPush svc {| world := w; calls := cs |}
      = ({| world := w2; calls := committed |}, failure e))
  /\ (forall (w2 : W) (e : string),
      git_commit G h msg w1 = (w2, Ok tt) ->
      git_getRemotes G h w2 = Throw e ->
      commitAndPush svc {| world := w; calls := cs |}
      = ({| world := w2; calls := committed ++ [CallGetRemotes] |},
         failure e))
  /\ (forall (w2 w3 : W) (r : Remote) (rs : list Remote) (b e : string),
      git_commit G h msg w1 = (w2, Ok tt) ->
      git_getRemotes G h w2 = Ok (r :: rs) ->
      current st = Some b -> b <> "" ->
      git_push G h "origin" b w2 = (w3, Throw e) ->
      commitAndPush svc {| world := w; calls := cs |}
      = ({| world := w3;
            calls := committed ++ [CallGetRemotes; CallPush "origin" b] |},
         failure e)).
Proof.
  intros Hg Hex Hrev Hst Hcount Hadd msg failure committed.
  apply count_nonzero in Hcount. subst msg failure committed.
  repeat split.
  - intros w2 e Hcommit.
    run_commit Hg Hex Hrev Hst Hcount Hadd Hcommit.
    repeat rewrite <- app_assoc. reflexivity.
  - intros w2 e Hcommit Hrem.
    run_commit Hg Hex Hrev Hst Hcount Hadd Hcommit.
    rewrite Hrem. simpl. repeat rewrite <- app_assoc. reflexivity.
  - intros w2 w3 r rs b e Hcommit Hrem Hcur Hb.
    intros Hpush.
    run_commit Hg Hex Hrev Hst Hcount Hadd Hcommit.
    rewrite Hrem, Hcur. simpl.
    assert (Ht : JS.truthy b = true).
    { unfold JS.truthy. destruct (String.eqb_spec b ""); [contradiction|].
      reflexivity. }
    rewrite Ht. simpl. rewrite Hpush. simpl.
    repeat rewrite <- app_assoc. reflexivity.
Qed.

(** Whenever the push step is reached and succeeds, the push went to the
    remote called [origin], whatever the configured remotes are called. *)
Lemma commitAndPush_push_target
  (svc : GitService) (h : string) (w w1 w2 w3 : W) (cs : list GitCall)
  (st : StatusResult) (out : string) (r : Remote) (rs : list Remote)
  (b : string) :
  git svc = Some h ->
  existsSync (path_join host [workspacePath svc; ".git"]) w = true ->
  git_revparse G h ["--is-inside-work-tree"] w = Ok out ->
  git_status G h w = Ok st ->
  count_changes st <> 0 ->
  git_add G h "." w = (w1, Ok tt) ->
  git_commit G h ("自动提交: " +:+ description_of st +:+ " [GitOK]") w1
    = (w2, Ok tt) ->
  git_getRemotes G h w2 = Ok (r :: rs) ->
  current st = Some b -> b <> "" ->
  git_push G h "origin" b w2 = (w3, Ok tt) ->
  commitAndPush svc {| world := w; calls := cs |}
  = ({| world := w3;
        calls := cs ++ [probe; CallStatus; CallStatus; CallAdd ".";
                        CallCommit ("自动提交: " +:+ description_of st
                                    +:+ " [GitOK]");
                        CallGetRemotes; CallPush "origin" b] |},
     Ok {| success := true;
           message := "已成功提交并推送更改: 自动提交: "
                      +:+ description_of st +:+ " [GitOK]" |}).
Proof.
  intros Hg Hex Hrev Hst Hcount Hadd Hcommit Hrem Hcur Hb Hpush.
  apply count_nonzero in Hcount.
  run_commit Hg Hex Hrev Hst Hcount Hadd Hcommit.
  rewrite Hrem, Hcur. simpl.
  assert (Ht : JS.truthy b = true).
  { unfold JS.truthy. destruct (String.eqb_spec b ""); [contradiction|].
    reflexivity. }
  rewrite Ht. simpl. rewrite Hpush. simpl.
  repeat rewrite <- app_assoc. reflexivity.
Qed.

(** C1.  With a status in hand: no current branch, or no remote, gives
    false.  Otherwise the first remote [r] decides: when the ref
    [refs/remotes/r/b] cannot be verified the answer is true; when it can,
    and [rev-list --count r/b..b] prints the count [n], the answer is
    [0 < n].  Nothing is changed. *)
Theorem hasUnpushedCommits_determination
  (svc : GitService) (h : string) (w : W) (cs : list GitCall)
  (st : StatusResult) :
  git svc = Some h ->
  git_status G h w = Ok st ->
  let b := JS.or_empty (current st) in
  let run := hasUnpushedCommits svc {| world := w; calls := cs |} in
  world (fst run) = w
  /\ (b = "" -> snd run = Ok false)
  /\ (b <> "" -> git_getRemotes G h w = Ok [] -> snd run = Ok false)
  /\ (forall (r : Remote) (rs : list Remote),
        b <> "" ->
        git_getRemotes G h w = Ok (r :: rs) ->
        let tracking_ref := "refs/remotes/" +:+ name r +:+ "/" +:+ b in
        let range := (name r +:+ "/" +:+ b) +:+ ".." +:+ b in
        (forall e : string,
            git_revparse G h ["--verify"; tracking_ref] w = Throw e ->
            snd run = Ok true)
        /\ (forall (hash : string) (n : nat),
            git_revparse G h ["--verify"; tracking_ref] w = Ok hash ->
            git_raw G h ["rev-list"; "--count"; range] w
              = Ok (JS.of_nat n +:+ JS.newline) ->
            snd run = Ok (0 <? n)%nat)).
Proof.
  intros Hg Hst b run. subst run.
  unfold Git.hasUnpushedCommits. rewrite Hg. unfold_eff. simpl.
  rewrite Hst. simpl. fold b.
  destruct (JS.truthy b) eqn:Hb; simpl.
  - assert (Hne : b <> "").
    { intros E. rewrite E in Hb. discriminate. }
    destruct (git_getRemotes G h w) as [[|r rs]|e] eqn:Hrem; simpl.
    + split; [reflexivity|]. split; [intros; contradiction|].
      split; [reflexivity|]. intros; discriminate.
    + split.
      { destruct (git_revparse G h _ w); simpl; [|reflexivity].
        destruct (git_raw G h _ w); reflexivity. }
      split; [intros; contradiction|]. split; [intros; discriminate|].
      intros r' rs' _ Heq. injection Heq as <- <-. split.
      * intros e He. rewrite He. reflexivity.
      * intros hash n Hv Hraw. rewrite Hv. simpl. rewrite Hraw. simpl.
        now rewrite JSFacts.count_read_back.
    + split; [reflexivity|]. split; [intros; contradiction|].
      split; intros; discriminate.
  - assert (He : b = "").
    { unfold JS.truthy in Hb. destruct (String.eqb_spec b ""); [assumption|].
      discriminate. }
    split; [reflexivity|]. split; [reflexivity|].
    split; intros; contradiction.
Qed.

End Service.

End GitFacts.

(** ** GitService on the reference repository store *)

Module GitExamples.

Import Git Sim GitFacts.

Abbreviation run_commitAndPush :=
  (Git.commitAndPush world_existsSync backend host service).

Lemma uninitialised_service_witness :
  Git.commitAndPush world_existsSync backend host
    (new_GitService backend "" (world_with (dirty_repo [] ∅)))
    (start (world_with (dirty_repo [] ∅)))
  = (start (world_with (dirty_repo [] ∅)),
     Ok {| success := false; message := "Git服务未初始化" |}).
Proof.
  destruct (uninitialised_service_returns_defaults world_existsSync backend
              host "" (world_with (dirty_repo [] ∅))
              (start (world_with (dirty_repo [] ∅))))
    as (_ & _ & _ & _ & H).
  - left. reflexivity.
  - exact H.
Defined.

Lemma commitAndPush_without_changes_witness :
  exists (cs' : list GitCall) (msg : string),
    Git.commitAndPush world_existsSync backend host service
      (start (world_with
                {| valid := true; work_tree := no_changes (Some "main");
                   remotes := [origin]; tracking := ∅;
                   history := ["init"] |}))
    = ({| world := world_with
                     {| valid := true; work_tree := no_changes (Some "main");
                        remotes := [origin]; tracking := ∅;
                        history := ["init"] |};
          calls := [] ++ cs' |},
       Ok {| success := false; message := msg |})
    /\ forallb (fun c => negb (is_mutating c)) cs' = true.
Proof.
  apply (commitAndPush_without_changes world_existsSync backend host
           service "/w" _ [] (no_changes (Some "main"))); reflexivity.
Defined.

Lemma commitAndPush_without_remote_witness :
  exists s' : St World,
    run_commitAndPush (start (world_with (dirty_repo [] ∅)))
    = (s', Ok {| success := true;
                 message := "已成功提交更改，但未找到远程仓库，无法推送" |})
    /\ log_of (start (world_with (dirty_repo [] ∅))) = Some ["init"]
    /\ log_of s' = Some [auto_message; "init"].
Proof.
  eexists. split; [|split].
  - eapply (commitAndPush_without_remote world_existsSync backend host
              service "/w" (world_with (dirty_repo [] ∅)));
      try reflexivity.
    discriminate.
  - reflexivity.
  - reflexivity.
Defined.

Lemma commitAndPush_failure_witness :
  exists s' : St World,
    Git.commitAndPush world_existsSync backend host service
      (start (world_with (dirty_repo [upstream] ∅)))
    = (s', Ok {| success := false;
                 message := "提交并推送失败: fatal: 'origin' does not appear to be a git repository" |})
    /\ log_of s' = Some [auto_message; "init"].
Proof.
  destruct (commitAndPush_failure_after_staging world_existsSync backend host
              service "/w" (world_with (dirty_repo [upstream] ∅))
              (fst (sim_add "/w" "." (world_with (dirty_repo [upstream] ∅))))
              [] (work_tree (dirty_repo [upstream] ∅)) "true")
    as (_ & _ & Hpush); try reflexivity; [discriminate|].
  eexists. split.
  - eapply (Hpush _ _ upstream [] "main"
              "fatal: 'origin' does not appear to be a git repository");
      try reflexivity.
    discriminate.
  - reflexivity.
Defined.

Lemma hasUnpushedCommits_witness :
  snd (Git.hasUnpushedCommits backend service
         (start (world_with (dirty_repo [origin] {["origin/main" := 0]}))))
  = Ok true.
Proof.
  destruct (hasUnpushedCommits_determination backend service "/w"
              (world_with (dirty_repo [origin] {["origin/main" := 0]})) []
              (work_tree (dirty_repo [origin] ∅)) eq_refl eq_refl)
    as (_ & _ & _ & H).
  specialize (H origin [] ltac:(discriminate) ltac:(reflexivity)).
  cbv zeta in H. destruct H as [_ Hcount].
  apply (Hcount "0000000000000000000000000000000000000000" 1); reflexivity.
Defined.

(** C2, on a repository whose only remote is called [upstream]: the push
    is issued for [origin], not for the first configured remote, and the
    run ends in failure although the commit was made. *)
Theorem commitAndPush_pushes_to_origin :
  let '(s', r) :=
    Git.commitAndPush world_existsSync backend host service
      (start (world_with (dirty_repo [upstream] ∅))) in
  calls s' = [probe; CallStatus; CallStatus; CallAdd ".";
              CallCommit auto_message; CallGetRemotes;
              CallPush "origin" "main"]
  /\ r = Ok {| success := false;
               message := "提交并推送失败: fatal: 'origin' does not appear to be a git repository" |}
  /\ log_of s' = Some [auto_message; "init"].
Proof. vm_compute. repeat split. Qed.

End GitExamples.

(** ** Workspace locators *)

Module LocatorFacts.

Import Fixtures.

Lemma first_existing_pick (l : list string) (fs : FS.t) :
  first_pick l fs (first_existing l fs).
Proof.
  induction l as [|p l IH]; simpl.
  - constructor.
  - destruct (FS.existsSync p fs) eqn:E.
    + exists [], l. repeat split; [assumption | constructor].
    + destruct (first_existing l fs) as [q|]; simpl in *.
      * destruct IH as (before & after & -> & Hq & Hb).
        exists (p :: before), after. repeat split; [assumption|].
        constructor; assumption.
      * constructor; assumption.
Qed.

(** C4, as amended.  For both IDE variants [findStoragePath] returns the
    first candidate that exists, in the order of the list, and nothing when
    none exists.  On darwin the VSCode list has the three candidates of
    the stable build first and those of the Insiders build after them. *)
Theorem findStoragePath_first_existing
  (host : Host) (fs : FS.t) (home : string) (appData : option string)
  (join : list string -> string) :
  first_pick (VSCode.possiblePaths host) fs (VSCode.findStoragePath host fs)
  /\ first_pick (Cursor.possiblePaths host) fs
       (Cursor.findStoragePath host fs)
  /\ VSCode.possiblePaths
       {| platform := darwin; homedir := home; env_APPDATA := appData;
          path_join := join; read_member := read_member host;
          write_member := write_member host |}
     = map (fun rel => join [home; rel]) (darwin_stable ++ darwin_insiders)
  /\ forallb (fun rel => negb (is_insiders rel)) darwin_stable = true
  /\ forallb is_insiders darwin_insiders = true.
Proof.
  split; [apply first_existing_pick|].
  split; [apply first_existing_pick|].
  repeat split.
Qed.

(** C4, as stated, fails on its ordering clause: on darwin the stable
    build's [storage.json] is listed before any Insiders candidate, and it
    is the one picked when both builds left a file. *)
Lemma insiders_not_listed_first :
  ~ insiders_first (VSCode.possiblePaths mac)
  /\ VSCode.findStoragePath mac fs_both_builds
     = Some "/Users/u/Library/Application Support/Code/storage.json"
  /\ FS.existsSync
       "/Users/u/Library/Application Support/Code - Insiders/storage.json"
       fs_both_builds = true.
Proof.
  split; [|split; reflexivity].
  intros H.
  specialize (H 3 0 _ _ eq_refl eq_refl eq_refl eq_refl). lia.
Qed.

End LocatorFacts.

(** ** WorkspaceCache *)

Module CacheFacts.

Import Json WorkspaceCache Fixtures.

Section Cache.

Variable host : Host.

Lemma ensureCacheDir_run (fs : FS.t) :
  usable host fs ->
  exists fs1 : FS.t,
    ensureCacheDir host fs = (fs1, Ok tt)
    /\ FS.entries fs1 !! CACHE_FILE host = FS.entries fs !! CACHE_FILE host
    /\ FS.write_denied fs1 = FS.write_denied fs.
Proof.
  intros (Hne & Hdir & _).
  unfold ensureCacheDir, bind, ret, fs_exists, FS.existsSync.
  destruct Hdir as [Hd | [Hd Hdenied]]; rewrite Hd; simpl.
  - exists fs. repeat split.
  - unfold FS.mkdirSync. rewrite bool_decide_eq_false_2 by assumption.
    rewrite Hd. eexists. split; [reflexivity|]. simpl. split; [|reflexivity].
    apply lookup_insert_ne. assumption.
Qed.

Lemma readCacheData_run (fs : FS.t) :
  FS.entries fs !! CACHE_FILE host <> Some FS.Dir ->
  (forall v : JVal,
      FS.entries fs !! CACHE_FILE host <> Some (FS.File (FS.JsonValue v))) ->
  exists o : JObject, readCacheData host fs = (fs, Ok (JObj o)).
Proof.
  intros Hnd Hobj.
  unfold readCacheData, bind, ret, fs_exists, fs_read, FS.existsSync,
    FS.readFileSync.
  destruct (FS.entries fs !! CACHE_FILE host) as [[|c]|] eqn:E; simpl;
    rewrite ?E.
  - contradiction.
  - destruct c as [|o|v|t]; simpl; try (eexists; reflexivity).
    destruct (Hobj v eq_refl).
  - eexists; reflexivity.
Qed.

Lemma writeFileSync_run (p : string) (c : FS.Content) (fs : FS.t) :
  p ∉ FS.write_denied fs ->
  FS.entries fs !! p <> Some FS.Dir ->
  FS.writeFileSync p c fs
  = ({| FS.entries := <[p := FS.File c]> (FS.entries fs);
        FS.write_denied := FS.write_denied fs |}, Ok tt).
Proof.
  intros Hd Hnd. unfold FS.writeFileSync.
  rewrite bool_decide_eq_false_2 by assumption.
  destruct (FS.entries fs !! p) as [[|c']|]; try reflexivity.
  contradiction.
Qed.

Lemma set_property_insert (o : JObject) (k : string) (v : JVal) :
  k <> "__proto__" -> set_property o k v = <[k := v]> o.
Proof.
  intros Hk. unfold set_property.
  destruct (o !! k); [reflexivity|].
  destruct (String.eqb_spec k "__proto__"); [contradiction|].
  reflexivity.
Qed.

(** After a save on a usable cache the file holds a document in which the
    application is bound to the cleaned workspace. *)
Lemma saveWorkspace_stores
  (appId : string) (workspace : option string) (fs : FS.t) :
  usable host fs ->
  appId <> "__proto__" ->
  exists o : JObject,
    FS.entries (fst (saveWorkspace host appId workspace fs))
      !! CACHE_FILE host
    = Some (FS.File (FS.JsonDoc (<[appId := stored workspace]> o))).
Proof.
  intros Hu Hproto.
  destruct (ensureCacheDir_run fs Hu) as (fs1 & Hens & He & Hd).
  destruct Hu as (_ & _ & Hfile & Hnd & Hobj).
  rewrite <- He in Hnd, Hobj. rewrite <- Hd in Hfile.
  destruct (readCacheData_run fs1 Hnd Hobj) as [o Hread].
  unfold saveWorkspace, try_catch, bind, of_result.
  rewrite Hens, Hread. fold (stored workspace). cbn [set_member].
  rewrite (set_property_insert _ _ _ Hproto). cbn [FS.JSON_stringify].
  rewrite (writeFileSync_run _ _ _ Hfile Hnd). simpl.
  exists o. apply lookup_insert_eq.
Qed.

(** Reading back an application's entry from a cache file that parses. *)
Lemma getWorkspace_reads
  (appId : string) (fs : FS.t) (o : JObject) :
  appId <> "" ->
  FS.entries fs !! CACHE_FILE host = Some (FS.File (FS.JsonDoc o)) ->
  getWorkspace host (Some appId) fs
  = match get_property o appId with
    | Data (JStr p) =>
        if JS.truthy p && FS.existsSync p fs then Some p else None
    | _ => None
    end.
Proof.
  intros Hne He. unfold getWorkspace, FS.existsSync at 1, FS.readFileSync.
  rewrite He. simpl. unfold actualAppId_of.
  assert (Ht : JS.truthy appId = true).
  { unfold JS.truthy. destruct (String.eqb_spec appId ""); [contradiction|].
    reflexivity. }
  simpl. rewrite Ht. simpl. rewrite Ht. simpl.
  destruct (get_property o appId) as [v| |]; simpl; try reflexivity.
  destruct v; simpl; try reflexivity.
  - destruct b; reflexivity.
  - destruct (negb (z =? 0)%Z); reflexivity.
  - destruct (JS.truthy s); simpl; [|reflexivity].
    destruct (FS.existsSync s fs); reflexivity.
Qed.

(** C8, as amended.  On a usable cache (the directory is there or can be
    made, the file can be written and, when there, holds a JSON object or
    nothing that parses) and for an application identifier that is neither
    empty nor [__proto__], [saveWorkspace(appId, p)] followed by
    [getWorkspace(appId)] returns the normalised form of [p] when that is
    not empty and exists on disk at read time, and nothing otherwise; what
    happened to the other paths between the write and the read does not
    matter.  The empty identifier is read like an omitted one. *)
Theorem saveWorkspace_then_getWorkspace
  (appId p : string) (fs later : FS.t) :
  appId <> "" ->
  appId <> "__proto__" ->
  usable host fs ->
  FS.entries later !! CACHE_FILE host
  = FS.entries (fst (saveWorkspace host appId (Some p) fs))
      !! CACHE_FILE host ->
  getWorkspace host (Some appId) later
  = match cleanWorkspacePath (Some p) with
    | Some q => if JS.truthy q && FS.existsSync q later then Some q else None
    | None => None
    end
  /\ getWorkspace host (Some "") later = getWorkspace host None later.
Proof.
  intros Hne Hproto Hu Hlater. split; [|reflexivity].
  destruct (saveWorkspace_stores appId (Some p) fs Hu Hproto) as [o Ho].
  rewrite Ho in Hlater.
  rewrite (getWorkspace_reads appId later _ Hne Hlater).
  unfold get_property. rewrite lookup_insert_eq. unfold stored.
  destruct (cleanWorkspacePath (Some p)); reflexivity.
Qed.

End Cache.

Lemma saveWorkspace_then_getWorkspace_witness :
  getWorkspace Sim.host (Some "Code")
    (fst (saveWorkspace Sim.host "Code" (Some "file:///tmp/a%2520b")
            fs_percent_dir))
  = Some "/tmp/a%20b".
Proof.
  refine (proj1 (saveWorkspace_then_getWorkspace Sim.host "Code"
                   "file:///tmp/a%2520b" fs_percent_dir _ _ _ _ eq_refl)).
  - discriminate.
  - discriminate.
  - split; [discriminate|].
    split; [right; split; [reflexivity | apply not_elem_of_empty]|].
    split; [apply not_elem_of_empty|].
    split; [discriminate | intros v; discriminate].
Defined.

(** C8, as stated, fails: the path is normalised before it is stored, so a
    directory whose name contains a percent escape exists on disk and is
    still not returned; and under the empty application identifier the read
    falls back to the current-application pointer. *)
Lemma round_trip_fails :
  FS.existsSync "/tmp/a%20b"
    (fst (saveWorkspace Sim.host "Code" (Some "/tmp/a%20b") fs_percent_dir))
  = true
  /\ getWorkspace Sim.host (Some "Code")
       (fst (saveWorkspace Sim.host "Code" (Some "/tmp/a%20b")
               fs_percent_dir))
     = None
  /\ getWorkspace Sim.host (Some "")
       (fst (saveWorkspace Sim.host "" (Some "/tmp/a%20b") fs_percent_dir))
     = None.
Proof. repeat split. Qed.

End CacheFacts.

(** ** The plugin *)

Module PluginFacts.

Import Types Plugin Fixtures.

Abbreviation body := (executeAction_body Sim.backend Sim.host).

(** The body of [executeAction] catches whatever is thrown inside. *)
Lemma executeAction_body_catches {V : Type} (G : Git.SimpleGit (World V))
  (host : Host) (action : Action) (s : PState) :
  exists (s' : PState) (o : Outcome),
    executeAction_body G host action s = (s', Ok o).
Proof.
  unfold executeAction_body, try_catch.
  match goal with |- context [match ?m s with _ => _ end] =>
    destruct (m s) as [s' [o|e]] end.
  - exists s', o. reflexivity.
  - eexists _, _. reflexivity.
Qed.

Lemma stale_first_activation (action : Action) :
  body action (plugin_state fs_stale_folder 0)
  = (plugin_state fs_recached 1, Ok Again).
Proof. vm_compute. reflexivity. Qed.

Lemma stale_next_activation (action : Action) (n : nat) :
  body action (plugin_state fs_recached n)
  = (plugin_state fs_recached (S n), Ok Again).
Proof. vm_compute. reflexivity. Qed.

Lemma stale_activations (action : Action) (n : nat) :
  activations Sim.backend Sim.host (S n) action (plugin_state fs_stale_folder 0)
  = plugin_state fs_recached (S n).
Proof.
  induction n as [|n IH].
  - simpl. now rewrite stale_first_activation.
  - change (activations Sim.backend Sim.host (S (S n)) action
              (plugin_state fs_stale_folder 0))
      with (fst (body action
                   (activations Sim.backend Sim.host (S n) action
                      (plugin_state fs_stale_folder 0)))).
    now rewrite IH, stale_next_activation.
Qed.

Lemma recached_never_settles (action : Action) (fuel n : nat) :
  executeAction Sim.backend Sim.host fuel action (plugin_state fs_recached n)
  = None.
Proof.
  revert n. induction fuel as [|fuel IH]; intros n; [reflexivity|].
  simpl. rewrite stale_next_activation. apply IH.
Qed.

(** C9, on a cache that names Cursor as the current application while the
    folder Cursor last had open is gone from the disk: every activation
    misses the cache, asks Cursor again, caches the same stale folder and
    calls itself; the [n]-th activation starts after [n] live lookups and
    ends in the recursive call, so no amount of fuel gives a result. *)
Theorem executeAction_repeats_resolution (action : Action) :
  (forall fuel : nat,
      executeAction Sim.backend Sim.host fuel action
        (plugin_state fs_stale_folder 0) = None)
  /\ (forall n : nat,
        live_lookups
          (activations Sim.backend Sim.host n action
             (plugin_state fs_stale_folder 0)) = n
        /\ snd (body action
                  (activations Sim.backend Sim.host n action
                     (plugin_state fs_stale_folder 0))) = Ok Again).
Proof.
  split.
  - intros [|fuel]; [reflexivity|].
    simpl. rewrite stale_first_activation. apply recached_never_settles.
  - intros [|n].
    + split; [reflexivity|]. simpl. now rewrite stale_first_activation.
    + rewrite stale_activations. split; [reflexivity|].
      now rewrite stale_next_activation.
Qed.

End PluginFacts.

(** ** GitService: what every run has in common *)

Module GitRuns.

Import Git Notions GitFacts.

Ltac split_calls :=
  repeat match goal with
         | |- context [match ?x with _ => _ end] =>
             lazymatch x with
             | context [match _ with _ => _ end] => fail
             | _ => destruct x eqn:?; simpl
             end
         end.

Ltac close_run :=
  simpl; rewrite <- ?app_assoc; simpl;
  first [ do 2 eexists; split; [reflexivity | repeat constructor]
        | eexists; exists []; rewrite app_nil_r; split;
          [reflexivity | constructor] ].

Section Service.

Context {W : Type}.
Variable existsSync : string -> W -> bool.
Variable G : SimpleGit W.
Variable host : Host.

Abbreviation isGitRepository := (Git.isGitRepository existsSync G host).
Abbreviation hasUnpushedCommits := (Git.hasUnpushedCommits G).
Abbreviation getStatus := (Git.getStatus existsSync G host).
Abbreviation getChangesDescription := (Git.getChangesDescription G).
Abbreviation commitAndPush := (Git.commitAndPush existsSync G host).

Lemma isGitRepository_query (svc : GitService) (s : St W) :
  exists (b : bool) (cs' : list GitCall),
    isGitRepository svc s
    = ({| world := world s; calls := calls s ++ cs' |}, Ok b)
    /\ queries_only cs'.
Proof.
  destruct s as [w cs]. unfold Git.isGitRepository.
  destruct (git svc) as [h|]; unfold_eff; simpl; split_calls; close_run.
Qed.

Lemma hasUnpushedCommits_query (svc : GitService) (s : St W) :
  exists (b : bool) (cs' : list GitCall),
    hasUnpushedCommits svc s
    = ({| world := world s; calls := calls s ++ cs' |}, Ok b)
    /\ queries_only cs'.
Proof.
  destruct s as [w cs]. unfold Git.hasUnpushedCommits.
  destruct (git svc) as [h|]; unfold_eff; simpl; split_calls; close_run.
Qed.

Lemma getChangesDescription_query (svc : GitService) (s : St W) :
  exists (d : string) (cs' : list GitCall),
    getChangesDescription svc s
    = ({| world := world s; calls := calls s ++ cs' |}, Ok d)
    /\ queries_only cs'.
Proof.
  destruct s as [w cs]. unfold Git.getChangesDescription.
  destruct (git svc) as [h|]; unfold_eff; simpl; split_calls; close_run.
Qed.

Lemma getStatus_query (svc : GitService) (s : St W) :
  exists (r : Types.GitStatus) (cs' : list GitCall),
    getStatus svc s = ({| world := world s; calls := calls s ++ cs' |}, Ok r)
    /\ queries_only cs'
    /\ (Types.isRepo r = false -> r = defaultStatus).
Proof.
  destruct s as [w cs].
  unfold Git.getStatus, Git.isGitRepository, Git.hasUnpushedCommits.
  destruct (git svc) as [h|]; unfold_eff; simpl; split_calls;
    simpl; rewrite <- ?app_assoc; simpl;
    first [ do 2 eexists; split; [reflexivity|];
            split; [repeat constructor | simpl; intros; congruence]
          | eexists; exists []; rewrite app_nil_r; split; [reflexivity|];
            split; [constructor | reflexivity] ].
Qed.

(** [getStatus] returns normally for every backend and state, leaves
    the world as it is and issues only queries; a summary that does not
    say "repository" is the zeroed one. *)
Theorem getStatus_read_only (svc : GitService) (s : St W) :
  exists (r : Types.GitStatus) (cs' : list GitCall),
    getStatus svc s = ({| world := world s; calls := calls s ++ cs' |}, Ok r)
    /\ queries_only cs'
    /\ (Types.isRepo r = false ->
        r = {| Types.isRepo := false;
               Types.branch := "";
               Types.changedFilesCount := 0;
               Types.hasChanges := false;
               Types.hasUnpushedCommits := false |}).
Proof. exact (getStatus_query svc s). Qed.

(** On a repository whose status can be read, the summary carries the
    current branch (empty when there is none), the sum of the five
    category counts, whether that sum is positive, and the answer of
    [hasUnpushedCommits] in the same world. *)
Theorem getStatus_summary
  (svc : GitService) (h : string) (w : W) (cs : list GitCall)
  (st : StatusResult) (out : string) :
  git svc = Some h ->
  existsSync (path_join host [workspacePath svc; ".git"]) w = true ->
  git_revparse G h ["--is-inside-work-tree"] w = Ok out ->
  git_status G h w = Ok st ->
  exists unpushed : bool,
    snd (hasUnpushedCommits svc {| world := w; calls := [] |}) = Ok unpushed
    /\ snd (getStatus svc {| world := w; calls := cs |})
       = Ok {| Types.isRepo := true;
               Types.branch := JS.or_empty (current st);
               Types.changedFilesCount :=
                 length (created st) + length (deleted st)
                 + length (modified st) + length (renamed st)
                 + length (not_added st);
               Types.hasChanges := (0 <? count_changes st)%nat;
               Types.hasUnpushedCommits := unpushed |}.
Proof.
  intros Hg Hex Hrev Hst.
  unfold Git.getStatus, Git.isGitRepository, Git.hasUnpushedCommits.
  rewrite Hg. unfold_eff. simpl. rewrite Hex. simpl. rewrite Hrev. simpl.
  rewrite ?Hst. simpl. rewrite ?Hst. simpl.
  split_calls; eexists; split; reflexivity.
Qed.

(** No operation of the service lets an exception escape, whatever the
    backend does. *)
Theorem operations_return_normally (svc : GitService) (s : St W) :
  (exists s' b, isGitRepository svc s = (s', Ok b))
  /\ (exists s' r, getStatus svc s = (s', Ok r))
  /\ (exists s' b, hasUnpushedCommits svc s = (s', Ok b))
  /\ (exists s' d, getChangesDescription svc s = (s', Ok d))
  /\ (exists s' r, commitAndPush svc s = (s', Ok r)).
Proof.
  repeat split.
  - destruct (isGitRepository_query svc s) as (b & cs' & H & _). eauto.
  - destruct (getStatus_query svc s) as (r & cs' & H & _). eauto.
  - destruct (hasUnpushedCommits_query svc s) as (b & cs' & H & _). eauto.
  - destruct (getChangesDescription_query svc s) as (d & cs' & H & _). eauto.
  - unfold Git.commitAndPush. destruct (git svc) as [h|].
    + unfold try_catch.
      match goal with |- context [match ?m s with _ => _ end] =>
        destruct (m s) as [s' [r|e]] end; unfold ret; eauto.
    + unfold ret. eauto.
Qed.

(** Whatever the backend answers, the calls of one [commitAndPush] are
    an initial part of a single fixed sequence: the probe, two status
    queries, [add .], one [commit], the remotes query and one [push] to
    [origin].  So it never commits before staging, never commits twice,
    never pushes without having committed, and pushes nowhere else. *)
Theorem commitAndPush_call_order (svc : GitService) (s : St W) :
  exists (cs' : list GitCall) (msg b : string),
    calls (fst (commitAndPush svc s)) = calls s ++ cs'
    /\ cs' `prefix_of` full_run msg b.
Proof.
  destruct s as [w cs].
  unfold Git.commitAndPush, Git.isGitRepository, Git.getChangesDescription.
  destruct (git svc) as [h|]; unfold_eff; simpl; split_calls;
    simpl; rewrite <- ?app_assoc; simpl;
    first [ do 3 eexists; split; [reflexivity|];
            eexists; unfold full_run; simpl; reflexivity
          | exists [], "", ""; rewrite app_nil_r; split; [reflexivity|];
            apply prefix_nil ].
  Unshelve. all: exact "".
Qed.




End Service.

End GitRuns.

(** ** The changes description *)

Module DescriptionFacts.

Import JS Git Notions Json.

Lemma append_cons (x : ascii) (a b : string) :
  String x a +:+ b = String x (a +:+ b).
Proof. reflexivity. Qed.

Lemma append_assoc (a b c : string) : (a +:+ b) +:+ c = a +:+ b +:+ c.
Proof.
  induction a as [|x a IH]; [reflexivity|].
  now rewrite !append_cons, IH.
Qed.

Lemma append_nil_r (a : string) : a +:+ "" = a.
Proof.
  induction a as [|x a IH]; [reflexivity|]. now rewrite append_cons, IH.
Qed.

Lemma length_append (a b : string) :
  String.length (a +:+ b) = String.length a + String.length b.
Proof.
  induction a as [|x a IH]; [reflexivity|].
  rewrite append_cons. simpl. now rewrite IH.
Qed.

(** The suffix is looked for at the very end only. *)
Lemma remove_suffix_append (p a b : string) :
  String.length p <= String.length b ->
  remove_suffix p (a +:+ b) = a +:+ remove_suffix p b.
Proof.
  intros Hlen. induction a as [|x a IH]; [reflexivity|].
  rewrite !append_cons. cbn [remove_suffix].
  destruct (String.eqb_spec (String x (a +:+ b)) p) as [E|_].
  - apply (f_equal String.length) in E. simpl in E.
    rewrite length_append in E. lia.
  - now rewrite IH.
Qed.

Abbreviation glue :=
  (fold_right (fun c acc : string => c +:+ ", " +:+ acc) "").

Lemma glue_app (l1 l2 : list string) : glue (l1 ++ l2) = glue l1 +:+ glue l2.
Proof.
  induction l1 as [|c l1 IH]; [reflexivity|].
  cbn [fold_right app]. now rewrite IH, !append_assoc.
Qed.

Lemma glue_length (c : string) (cl : list string) :
  2 <= String.length (glue (c :: cl)).
Proof.
  cbn [fold_right]. rewrite !length_append. simpl. lia.
Qed.

Lemma remove_suffix_glue (cl : list string) :
  remove_suffix ", " (glue cl) = join_with ", " cl.
Proof.
  induction cl as [|c cl IH]; [reflexivity|].
  destruct cl as [|c2 cl].
  - cbn [fold_right join_with].
    rewrite remove_suffix_append by (simpl; lia).
    change (remove_suffix ", " (", " +:+ "")) with "". apply append_nil_r.
  - change (glue (c :: c2 :: cl)) with (c +:+ ", " +:+ glue (c2 :: cl)).
    rewrite remove_suffix_append
      by (rewrite length_append; pose proof (glue_length c2 cl); simpl; lia).
    rewrite (remove_suffix_append ", " ", ")
      by (pose proof (glue_length c2 cl); simpl in *; lia).
    rewrite IH. reflexivity.
Qed.

Lemma describe_glue (label : string) (n : nat) (d : string) :
  describe label n d = d +:+ glue (clause label n).
Proof.
  unfold describe, clause. destruct (0 <? n)%nat; cbn [fold_right].
  - now rewrite !append_assoc, append_nil_r.
  - now rewrite append_nil_r.
Qed.

(** The description is the comma-separated list of the clauses of the
    non-empty categories, in the order created, modified, deleted, renamed,
    untracked, with no trailing separator; it is empty exactly when
    nothing changed. *)
Theorem description_is_comma_joined (st : StatusResult) :
  description_of st = join_with ", " (clauses st)
  /\ (description_of st = "" <-> count_changes st = 0).
Proof.
  assert (H : description_of st = join_with ", " (clauses st)).
  { unfold description_of, clauses.
    rewrite !describe_glue, <- remove_suffix_glue, !glue_app.
    now rewrite !append_assoc. }
  split; [exact H|]. rewrite H.
  unfold clauses, clause, count_changes.
  destruct (length (created st)), (length (modified st)),
    (length (deleted st)), (length (renamed st)), (length (not_added st));
    cbn [Nat.ltb Nat.leb app join_with];
    (split; [intros E; try reflexivity; try (exfalso; clear -E) | intros E; try reflexivity; try lia]).
  all: try (match type of E with ?l = "" =>
              let l' := eval hnf in l in change (l' = "") in E end;
            discriminate).
Qed.

(** [getChangesDescription] on a readable status; without a handle or
    with a failing status query it is the empty string. *)
Theorem getChangesDescription_summary
  {W : Type} (G : SimpleGit W) (svc : GitService) (h : string) (s : St W) :
  git svc = Some h ->
  (forall st : StatusResult,
      git_status G h (world s) = Ok st ->
      exists d : string,
        snd (getChangesDescription G svc s) = Ok d
        /\ d = join_with ", " (clauses st)
        /\ (d = "" <-> count_changes st = 0))
  /\ (forall e : string,
        git_status G h (world s) = Throw e ->
        snd (getChangesDescription G svc s) = Ok "").
Proof.
  intros Hg.
  rewrite (GitFacts.getChangesDescription_run G svc h s Hg). simpl.
  split.
  - intros st Hst. rewrite Hst. exists (description_of st).
    destruct (description_is_comma_joined st) as [H1 H2]. auto.
  - intros e He. now rewrite He.
Qed.

End DescriptionFacts.

(** ** WorkspaceCache: the pointer, several entries, failures *)

Module CacheMore.

Import Json WorkspaceCache Notions CacheFacts.

Section Cache.

Variable host : Host.

Lemma ensureCacheDir_result (fs : FS.t) :
  usable host fs ->
  exists fs1 : FS.t,
    ensureCacheDir host fs = (fs1, Ok tt)
    /\ FS.entries fs1 !! CACHE_DIR host = Some FS.Dir
    /\ (forall p, p <> CACHE_DIR host ->
                  FS.entries fs1 !! p = FS.entries fs !! p)
    /\ FS.write_denied fs1 = FS.write_denied fs.
Proof.
  intros (Hne & Hdir & _).
  unfold ensureCacheDir, bind, ret, fs_exists, FS.existsSync.
  destruct Hdir as [Hd | [Hd Hdenied]]; rewrite Hd; simpl.
  - exists fs. repeat split. assumption.
  - unfold FS.mkdirSync. rewrite bool_decide_eq_false_2 by assumption.
    rewrite Hd. eexists. split; [reflexivity|]. simpl.
    split; [apply lookup_insert_eq|]. split; [|reflexivity].
    intros p Hp. now apply lookup_insert_ne.
Qed.

Lemma readCacheData_doc (fs : FS.t) :
  FS.entries fs !! CACHE_FILE host <> Some FS.Dir ->
  (forall v : JVal,
      FS.entries fs !! CACHE_FILE host <> Some (FS.File (FS.JsonValue v))) ->
  readCacheData host fs = (fs, Ok (JObj (cache_doc host fs))).
Proof.
  intros Hnd Hobj.
  unfold readCacheData, cache_doc, bind, ret, fs_exists, fs_read,
    FS.existsSync, FS.readFileSync.
  destruct (FS.entries fs !! CACHE_FILE host) as [[|c]|] eqn:E; simpl;
    rewrite ?E.
  - contradiction.
  - destruct c as [|o|v|t]; try reflexivity. destruct (Hobj v eq_refl).
  - reflexivity.
Qed.

Lemma write_binding (k : string) (v : JVal) (fs : FS.t) :
  usable host fs ->
  k <> "__proto__" ->
  forall m : Eff FS.t unit,
    m = (try_catch
           (bind (ensureCacheDir host) (fun _ =>
            bind (readCacheData host) (fun cacheData =>
            bind (of_result (set_member host cacheData k v)) (fun cacheData =>
            FS.writeFileSync (CACHE_FILE host)
              (FS.JSON_stringify cacheData)))))
           (fun _ => ret tt)) ->
    snd (m fs) = Ok tt /\ written host k v fs (fst (m fs)).
Proof.
  intros Hu Hk m ->.
  destruct (ensureCacheDir_result fs Hu) as (fs1 & Hens & Hdir & Hother & Hd).
  destruct Hu as (Hne & _ & Hfile & Hnd & Hobj).
  assert (He : FS.entries fs1 !! CACHE_FILE host
               = FS.entries fs !! CACHE_FILE host).
  { apply Hother. congruence. }
  assert (Hdoc : cache_doc host fs1 = cache_doc host fs).
  { unfold cache_doc. now rewrite He. }
  rewrite <- He in Hnd, Hobj. rewrite <- Hd in Hfile.
  unfold try_catch, bind, of_result.
  rewrite Hens, (readCacheData_doc fs1 Hnd Hobj), Hdoc. cbn [set_member].
  rewrite (set_property_insert _ _ _ Hk). cbn [FS.JSON_stringify].
  rewrite (writeFileSync_run _ _ _ Hfile Hnd).
  cbn [fst snd]. split; [reflexivity|].
  unfold written, usable, cache_doc. cbn [FS.entries FS.write_denied].
  rewrite !lookup_insert_eq. fold (cache_doc host fs).
  assert (Hdir' : <[CACHE_FILE host :=
                      FS.File (FS.JsonDoc (<[k := v]> (cache_doc host fs)))]>
                   (FS.entries fs1) !! CACHE_DIR host = Some FS.Dir).
  { rewrite lookup_insert_ne by congruence. assumption. }
  split; [reflexivity|]. split; [reflexivity|]. split; [|split].
  - split; [assumption|]. split; [left; exact Hdir'|].
    split; [assumption|]. split; [discriminate | intros x; discriminate].
  - exact Hdir'.
  - intros p Hp1 Hp2. rewrite lookup_insert_ne by congruence.
    now apply Hother.
Qed.

Lemma saveWorkspace_written
  (appId : string) (workspace : option string) (fs : FS.t) :
  usable host fs ->
  appId <> "__proto__" ->
  snd (saveWorkspace host appId workspace fs) = Ok tt
  /\ written host appId (stored workspace) fs
       (fst (saveWorkspace host appId workspace fs)).
Proof.
  intros Hu Hk. now apply (write_binding appId (stored workspace) fs Hu Hk).
Qed.

Lemma saveCurrentApp_written (appId : string) (fs : FS.t) :
  usable host fs ->
  snd (saveCurrentApp host appId fs) = Ok tt
  /\ written host (CURRENT_APP_KEY) (JStr appId) fs
       (fst (saveCurrentApp host appId fs)).
Proof.
  intros Hu.
  now apply (write_binding CURRENT_APP_KEY (JStr appId) fs Hu).
Qed.

Lemma truthy_nonempty (x : string) : x <> "" -> JS.truthy x = true.
Proof.
  intros H. unfold JS.truthy. destruct (String.eqb_spec x ""); [contradiction|].
  reflexivity.
Qed.

Lemma getWorkspace_lookup (appId : string) (fs : FS.t) (o : JObject) :
  appId <> "" ->
  FS.entries fs !! CACHE_FILE host = Some (FS.File (FS.JsonDoc o)) ->
  getWorkspace host (Some appId) fs
  = match get_property o appId with
    | Data (JStr p) => checked p fs
    | _ => None
    end.
Proof. intros. unfold checked. now apply getWorkspace_reads. Qed.

(** Without an identifier (or with the empty one) the read goes through
    the current-application pointer. *)
Lemma getWorkspace_pointer
  (appId : option string) (app : string) (fs : FS.t) (o : JObject) :
  JS.or_empty appId = "" ->
  app <> "" ->
  FS.entries fs !! CACHE_FILE host = Some (FS.File (FS.JsonDoc o)) ->
  o !! CURRENT_APP_KEY = Some (JStr app) ->
  getWorkspace host appId fs
  = match get_property o app with
    | Data (JStr p) => checked p fs
    | _ => None
    end.
Proof.
  intros Hid Happ He Hkey.
  unfold getWorkspace, FS.existsSync at 1, FS.readFileSync.
  assert (Hptr : get_property o CURRENT_APP_KEY = Data (JStr app)).
  { unfold get_property. now rewrite Hkey. }
  rewrite He. unfold actualAppId_of. rewrite Hid. simpl.
  rewrite !Hptr. simpl.
  rewrite ?(truthy_nonempty app Happ). simpl. unfold checked.
  destruct (get_property o app) as [v| |]; simpl;
    rewrite ?(truthy_nonempty app Happ); simpl; try reflexivity.
  destruct v as [|flag|z|q|items|fields]; simpl;
    rewrite ?(truthy_nonempty app Happ); simpl; try reflexivity.
  - destruct flag; reflexivity.
  - destruct (negb (z =? 0)%Z); reflexivity.
  - destruct (JS.truthy q); simpl; [|reflexivity].
    destruct (FS.existsSync q fs); reflexivity.
Qed.

Lemma getCurrentApp_doc (fs : FS.t) (o : JObject) :
  FS.entries fs !! CACHE_FILE host = Some (FS.File (FS.JsonDoc o)) ->
  getCurrentApp host fs
  = if value_truthy (get_property o CURRENT_APP_KEY)
    then get_property o CURRENT_APP_KEY
    else Data (JStr "").
Proof.
  intros He. unfold getCurrentApp, FS.existsSync, FS.readFileSync.
  now rewrite He.
Qed.

Lemma stored_lookup (workspace : option string) (fs : FS.t) :
  match stored workspace with
  | JStr p => checked p fs
  | _ => None
  end
  = match cleanWorkspacePath workspace with
    | Some q => checked q fs
    | None => None
    end.
Proof. unfold stored. destruct (cleanWorkspacePath workspace); reflexivity. Qed.

(** [saveCurrentApp] then [getCurrentApp] gives back the identifier, the
    empty one included, whatever the cache held before. *)
Theorem saveCurrentApp_then_getCurrentApp (appId : string) (fs : FS.t) :
  usable host fs ->
  getCurrentApp host (fst (saveCurrentApp host appId fs))
  = Data (JStr appId).
Proof.
  intros Hu.
  destruct (saveCurrentApp_written appId fs Hu) as (_ & _ & He & _).
  rewrite (getCurrentApp_doc _ _ He).
  unfold get_property. rewrite lookup_insert_eq. simpl.
  unfold JS.truthy. destruct (String.eqb_spec appId ""); simpl; congruence.
Qed.

(** The pair of writes of [getActions] and the read of [executeAction],
    on a usable cache and for an application identifier that is not empty
    and is neither [__proto__] nor [_current_app_]: after
    [saveCurrentApp(app)] and [saveWorkspace(app, workspace)], a read
    without identifier finds, through the pointer, the normalised
    workspace when it is not empty and exists at read time, and nothing
    otherwise (also when [null] was stored). *)
Theorem pointer_then_workspace
  (app : string) (workspace : option string) (fs later : FS.t) :
  usable host fs ->
  app <> "" -> app <> "__proto__" -> app <> "_current_app_" ->
  FS.entries later !! CACHE_FILE host
  = FS.entries
      (fst (saveWorkspace host app workspace
              (fst (saveCurrentApp host app fs)))) !! CACHE_FILE host ->
  getCurrentApp host later = Data (JStr app)
  /\ getWorkspace host None later
     = match cleanWorkspacePath workspace with
       | Some q => checked q later
       | None => None
       end.
Proof.
  intros Hu Hne Hproto Hkey Hlater.
  destruct (saveCurrentApp_written app fs Hu) as (_ & Hdoc1 & _ & Hu1 & _).
  destruct (saveWorkspace_written app workspace _ Hu1 Hproto)
    as (_ & _ & He2 & _).
  rewrite Hdoc1 in He2. rewrite He2 in Hlater.
  assert (Hptr : (<[app := stored workspace]>
                    (<[CURRENT_APP_KEY := JStr app]> (cache_doc host fs)))
                 !! CURRENT_APP_KEY = Some (JStr app)).
  { rewrite lookup_insert_ne by (unfold CURRENT_APP_KEY; congruence).
    apply lookup_insert_eq. }
  split.
  - rewrite (getCurrentApp_doc _ _ Hlater).
    unfold get_property. rewrite Hptr. simpl.
    now rewrite (truthy_nonempty app Hne).
  - rewrite (getWorkspace_pointer None app later _ eq_refl Hne Hlater Hptr).
    unfold get_property. rewrite lookup_insert_eq. apply stored_lookup.
Qed.

(** Entries are independent and the last write wins: on a usable cache
    and for identifiers other than [__proto__], [a] not being empty, after
    a write for [a] and then one for [b], reading [a] gives what was
    written last under [a]. *)
Theorem getWorkspace_after_two_writes
  (a b : string) (wa wb : option string) (fs : FS.t) :
  usable host fs ->
  a <> "" -> a <> "__proto__" -> b <> "__proto__" ->
  let fs2 :=
    fst (saveWorkspace host b wb (fst (saveWorkspace host a wa fs))) in
  getWorkspace host (Some a) fs2
  = match cleanWorkspacePath (if decide (a = b) then wb else wa) with
    | Some q => checked q fs2
    | None => None
    end.
Proof.
  intros Hu Ha Hpa Hpb fs2.
  destruct (saveWorkspace_written a wa fs Hu Hpa) as (_ & Hdoc1 & _ & Hu1 & _).
  destruct (saveWorkspace_written b wb _ Hu1 Hpb) as (_ & _ & He2 & _).
  rewrite Hdoc1 in He2. fold fs2 in He2.
  rewrite (getWorkspace_lookup a fs2 _ Ha He2).
  unfold get_property. destruct (decide (a = b)) as [<-|Hab].
  - rewrite lookup_insert_eq. apply stored_lookup.
  - rewrite lookup_insert_ne by congruence. rewrite lookup_insert_eq.
    apply stored_lookup.
Qed.

(** A read never hands out a dangling or empty path. *)
Theorem getWorkspace_exists
  (appId : option string) (fs : FS.t) (p : string) :
  getWorkspace host appId fs = Some p ->
  FS.existsSync p fs = true /\ p <> "".
Proof.
  unfold getWorkspace. intros H.
  repeat match type of H with
         | context [match ?x with _ => _ end] =>
             lazymatch x with
             | context [match _ with _ => _ end] => fail
             | _ => destruct x eqn:?; simpl in H; try discriminate
             end
         end.
  all: injection H as <-.
  all: split; [apply negb_false_iff; assumption|].
  all: intros ->; simpl in *; discriminate.
Qed.

Lemma try_catch_quiet {S : Type} (m : Eff S unit) (x : S) :
  snd (try_catch m (fun _ => ret tt) x) = Ok tt.
Proof.
  unfold try_catch, ret. destruct (m x) as [x' [[]|e]]; reflexivity.
Qed.

Lemma saveWorkspace_quiet
  (appId : string) (workspace : option string) (fs : FS.t) :
  snd (saveWorkspace host appId workspace fs) = Ok tt.
Proof. apply try_catch_quiet. Qed.

Lemma saveCurrentApp_quiet (appId : string) (fs : FS.t) :
  snd (saveCurrentApp host appId fs) = Ok tt.
Proof. apply try_catch_quiet. Qed.

(** Neither save lets an exception out; and when the cache file cannot be
    written its content stays what it was. *)
Theorem save_failure_is_silent
  (appId : string) (workspace : option string) (fs : FS.t) :
  snd (saveWorkspace host appId workspace fs) = Ok tt
  /\ snd (saveCurrentApp host appId fs) = Ok tt
  /\ (CACHE_DIR host <> CACHE_FILE host ->
      CACHE_FILE host ∈ FS.write_denied fs ->
      FS.entries (fst (saveWorkspace host appId workspace fs))
        !! CACHE_FILE host = FS.entries fs !! CACHE_FILE host
      /\ FS.entries (fst (saveCurrentApp host appId fs))
           !! CACHE_FILE host = FS.entries fs !! CACHE_FILE host).
Proof.
  split; [apply saveWorkspace_quiet|]. split; [apply saveCurrentApp_quiet|].
  intros Hne Hdenied.
  assert (Hkeep : forall k v,
    FS.entries
      (fst (try_catch
              (bind (ensureCacheDir host) (fun _ =>
               bind (readCacheData host) (fun cacheData =>
               bind (of_result (set_member host cacheData k v))
                 (fun cacheData =>
               FS.writeFileSync (CACHE_FILE host)
                 (FS.JSON_stringify cacheData)))))
              (fun _ => ret tt) fs)) !! CACHE_FILE host
    = FS.entries fs !! CACHE_FILE host).
  { intros k v.
    assert (Hens : FS.entries (fst (ensureCacheDir host fs)) !! CACHE_FILE host
                   = FS.entries fs !! CACHE_FILE host
                   /\ FS.write_denied (fst (ensureCacheDir host fs))
                      = FS.write_denied fs).
    { unfold ensureCacheDir, bind, ret, fs_exists, FS.mkdirSync.
      destruct (negb (FS.existsSync (CACHE_DIR host) fs));
        [|split; reflexivity].
      destruct (bool_decide (CACHE_DIR host ∈ FS.write_denied fs));
        [split; reflexivity|].
      destruct (FS.entries fs !! CACHE_DIR host) as [[|c]|];
        cbn [fst FS.entries FS.write_denied]; split; try reflexivity.
      apply lookup_insert_ne. assumption. }
    assert (Hread : forall x, fst (readCacheData host x) = x).
    { intros x. unfold readCacheData, bind, ret, fs_exists, fs_read.
      destruct (FS.existsSync (CACHE_FILE host) x); [|reflexivity].
      destruct (FS.readFileSync (CACHE_FILE host) x) as [c|e]; [|reflexivity].
      destruct (FS.JSON_parse c); reflexivity. }
    unfold try_catch, bind.
    destruct (ensureCacheDir host fs) as [fs1 [[]|e]]; cbn [fst] in Hens;
      destruct Hens as [He Hd]; [|assumption].
    specialize (Hread fs1).
    destruct (readCacheData host fs1) as [fs2 [o|e]]; cbn [fst] in Hread;
      subst fs2; [|assumption].
    unfold of_result.
    destruct (set_member host o k v) as [o'|e]; [|assumption].
    unfold FS.writeFileSync. rewrite Hd.
    rewrite bool_decide_eq_true_2 by assumption. assumption. }
  split; apply Hkeep.
Qed.

Lemma ensureCacheDir_keeps_file (fs : FS.t) (c : FS.Content) :
  FS.entries fs !! CACHE_FILE host = Some (FS.File c) ->
  FS.entries (fst (ensureCacheDir host fs)) !! CACHE_FILE host
  = Some (FS.File c).
Proof.
  intros He.
  unfold ensureCacheDir, bind, ret, fs_exists, FS.existsSync, FS.mkdirSync.
  destruct (FS.entries fs !! CACHE_DIR host) as [n|] eqn:Ed; [exact He|].
  cbn [negb].
  destruct (bool_decide (CACHE_DIR host ∈ FS.write_denied fs)); [exact He|].
  rewrite Ed. cbn [fst FS.entries]. rewrite lookup_insert_ne; [exact He|].
  intros E. rewrite E in Ed. congruence.
Qed.

(** A cache file that holds the JSON value [null] stays as it is: the
    assignment to a member of [null] throws inside both save methods, which
    then write nothing, and both reads fail on it, so that the workspace
    is never found and the current application is the empty string. *)
Theorem null_cache_is_inert
  (appId : string) (workspace id : option string) (fs : FS.t) :
  FS.entries fs !! CACHE_FILE host = Some (FS.File (FS.JsonValue JNull)) ->
  FS.entries (fst (saveWorkspace host appId workspace fs)) !! CACHE_FILE host
  = Some (FS.File (FS.JsonValue JNull))
  /\ FS.entries (fst (saveCurrentApp host appId fs)) !! CACHE_FILE host
     = Some (FS.File (FS.JsonValue JNull))
  /\ getWorkspace host id (fst (saveWorkspace host appId workspace fs)) = None
  /\ getCurrentApp host (fst (saveCurrentApp host appId fs)) = Data (JStr "").
Proof.
  intros He.
  assert (Hsave : forall k v,
    FS.entries
      (fst (try_catch
              (bind (ensureCacheDir host) (fun _ =>
               bind (readCacheData host) (fun cacheData =>
               bind (of_result (set_member host cacheData k v))
                 (fun cacheData =>
               FS.writeFileSync (CACHE_FILE host)
                 (FS.JSON_stringify cacheData)))))
              (fun _ => ret tt) fs)) !! CACHE_FILE host
    = Some (FS.File (FS.JsonValue JNull))).
  { intros k v.
    pose proof (ensureCacheDir_keeps_file fs _ He) as H1.
    unfold try_catch, bind.
    destruct (ensureCacheDir host fs) as [fs1 [[]|e]]; cbn [fst] in H1;
      [|exact H1].
    unfold readCacheData, bind, fs_exists, fs_read, FS.existsSync,
      FS.readFileSync, of_result, ret.
    rewrite H1. cbn [negb]. rewrite H1.
    cbn [FS.JSON_parse set_member fst]. exact H1. }
  assert (Hget : forall fs' : FS.t,
    FS.entries fs' !! CACHE_FILE host = Some (FS.File (FS.JsonValue JNull)) ->
    getWorkspace host id fs' = None
    /\ getCurrentApp host fs' = Data (JStr "")).
  { intros fs' He'. split.
    - unfold getWorkspace, FS.existsSync, FS.readFileSync. rewrite He'.
      cbn [negb FS.JSON_parse]. unfold actualAppId_of.
      destruct (JS.truthy (JS.or_empty id)) eqn:Hid; cbn [get_member];
        [|reflexivity].
      cbn [value_truthy truthy]. rewrite Hid. reflexivity.
    - unfold getCurrentApp, FS.existsSync, FS.readFileSync. rewrite He'.
      reflexivity. }
  split; [apply Hsave|]. split; [apply Hsave|].
  split; [apply Hget, Hsave | apply Hget, Hsave].
Qed.

End Cache.

End CacheMore.

(** ** Locators: from a folder URI to a path *)

Module LocatorMore.

Import Json.

Lemma remove_first_scheme (p : string) :
  JS.remove_first "file://" ("file://" +:+ p) = p.
Proof. reflexivity. Qed.

Lemma truthy_scheme (p : string) : JS.truthy ("file://" +:+ p) = true.
Proof. reflexivity. Qed.

(** [parseJsonStorage]: the first entry of the opened-paths history
    decides, whatever the window state says; without a history the last
    active window does.  A [file://] URI of a path without percent signs
    comes back as that path. *)
Theorem parseJsonStorage_history_first
  (filePath p : string) (fs : FS.t) (o : JObject) :
  FS.entries fs !! filePath = Some (FS.File (FS.JsonDoc o)) ->
  JS.percent_free p = true ->
  (forall (history entry : JObject) (rest : list JVal),
      o !! "openedPathsList" = Some (JObj history) ->
      history !! "entries" = Some (JArr (JObj entry :: rest)) ->
      entry !! "folderUri" = Some (JStr ("file://" +:+ p)) ->
      VSCode.parseJsonStorage filePath fs = Some p)
  /\ (forall window last : JObject,
        o !! "openedPathsList" = None ->
        o !! "windowState" = Some (JObj window) ->
        window !! "lastActiveWindow" = Some (JObj last) ->
        last !! "folderUri" = Some (JStr ("file://" +:+ p)) ->
        VSCode.parseJsonStorage filePath fs = Some p).
Proof.
  intros He Hp.
  assert (Hdec : VSCode.decode p = Ok p).
  { unfold VSCode.decode. now rewrite (JSFacts.decode_percent_free p Hp). }
  split.
  - intros history entry rest H1 H2 H3.
    unfold VSCode.parseJsonStorage, FS.readFileSync. rewrite He.
    cbn [FS.JSON_parse field_of get_field get_first head].
    rewrite H1. cbn [get_field get_first head]. rewrite H2.
    cbn [get_field get_first head]. rewrite H3.
    cbn [is_truthy truthy]. rewrite !truthy_scheme.
    cbn [truthy VSCode.replace_file_scheme]. rewrite !truthy_scheme.
    rewrite remove_first_scheme, Hdec. reflexivity.
  - intros window last H0 H1 H2 H3.
    unfold VSCode.parseJsonStorage, FS.readFileSync. rewrite He.
    cbn [FS.JSON_parse field_of get_field get_first head].
    rewrite H0, H1. cbn [get_field get_first head is_truthy]. rewrite H2.
    cbn [get_field get_first head]. rewrite H3.
    cbn [is_truthy truthy]. rewrite !truthy_scheme.
    cbn [truthy VSCode.replace_file_scheme]. rewrite !truthy_scheme.
    rewrite remove_first_scheme, Hdec. reflexivity.
Qed.

(** The order of [ORDER BY key DESC]. *)

Lemma ascii_compare_refl (a : ascii) : Ascii.compare a a = Eq.
Proof. unfold Ascii.compare. apply N.compare_refl. Qed.

Lemma ascii_compare_lt_trans (a b c : ascii) :
  Ascii.compare a b = Lt -> Ascii.compare b c = Lt -> Ascii.compare a c = Lt.
Proof.
  unfold Ascii.compare. rewrite !N.compare_lt_iff. lia.
Qed.

Lemma compare_not_gt_trans (a b c : string) :
  String.compare a b <> Gt -> String.compare b c <> Gt ->
  String.compare a c <> Gt.
Proof.
  revert b c. induction a as [|x a IH]; intros [|y b] [|z c]; simpl;
    try congruence.
  destruct (Ascii.compare x y) eqn:Exy; try congruence;
    destruct (Ascii.compare y z) eqn:Eyz; try congruence.
  - apply Ascii.compare_eq_iff in Exy, Eyz. subst.
    rewrite ascii_compare_refl. apply IH.
  - apply Ascii.compare_eq_iff in Exy. subst. rewrite Eyz. congruence.
  - apply Ascii.compare_eq_iff in Eyz. subst. rewrite Exy. congruence.
  - rewrite (ascii_compare_lt_trans _ _ _ Exy Eyz). congruence.
Qed.

Lemma leb_trans (a b c : string) :
  String.leb a b = true -> String.leb b c = true -> String.leb a c = true.
Proof.
  unfold String.leb. intros Hab Hbc.
  pose proof (compare_not_gt_trans a b c) as H.
  destruct (String.compare a b); try discriminate;
    destruct (String.compare b c); try discriminate;
    destruct (String.compare a c); try reflexivity;
    exfalso; apply H; congruence.
Qed.

Lemma ltb_not_leb (a b : string) :
  String.ltb a b = true -> String.leb b a = true -> False.
Proof.
  unfold String.ltb, String.leb. rewrite (String.compare_antisym a b).
  destruct (String.compare b a); simpl; intros; discriminate.
Qed.

Abbreviation below :=
  (fun a b : FS.Row => String.leb (FS.key b) (FS.key a) = true).

Lemma insert_desc_elem (r x : FS.Row) (l : list FS.Row) :
  x ∈ VSCode.insert_desc r l <-> x = r \/ x ∈ l.
Proof.
  induction l as [|y l IH]; simpl.
  - rewrite list_elem_of_singleton. split; [auto|].
    intros [H|H]; [assumption | inversion H].
  - destruct (String.leb (FS.key y) (FS.key r)).
    + apply elem_of_cons.
    + rewrite !elem_of_cons, IH. tauto.
Qed.

Lemma insert_desc_sorted (r : FS.Row) (l : list FS.Row) :
  StronglySorted below l -> StronglySorted below (VSCode.insert_desc r l).
Proof.
  induction 1 as [|y l Hs IH Hf]; simpl.
  - repeat constructor.
  - destruct (String.leb (FS.key y) (FS.key r)) eqn:E.
    + constructor; [constructor; assumption|].
      constructor; [exact E|].
      eapply Forall_impl; [exact Hf|].
      intros z Hz. simpl in *. exact (leb_trans _ _ _ Hz E).
    + constructor; [exact IH|].
      apply Forall_forall. intros z Hz.
      apply insert_desc_elem in Hz as [->|Hz].
      * destruct (String.leb_total (FS.key y) (FS.key r)) as [H|H];
          [congruence | exact H].
      * rewrite Forall_forall in Hf. exact (Hf z Hz).
Qed.

Lemma query_sorted (table : list FS.Row) :
  StronglySorted below (VSCode.query table).
Proof.
  unfold VSCode.query.
  induction (filter VSCode.selected table) as [|r l IH]; simpl.
  - constructor.
  - apply insert_desc_sorted. exact IH.
Qed.

Lemma query_elem (table : list FS.Row) (x : FS.Row) :
  x ∈ VSCode.query table <-> x ∈ table /\ VSCode.selected x = true.
Proof.
  unfold VSCode.query.
  transitivity (x ∈ filter VSCode.selected table).
  - induction (filter VSCode.selected table) as [|r l IH]; simpl.
    + reflexivity.
    + rewrite insert_desc_elem, elem_of_cons, IH. reflexivity.
  - rewrite list_elem_of_filter, Is_true_true. tauto.
Qed.

Lemma passed_over_skip (r : FS.Row) :
  Notions.passed_over r -> VSCode.scan_row r = None.
Proof.
  unfold Notions.passed_over, VSCode.scan_row.
  destruct (FS.value r) as [| | |o]; try reflexivity.
  intros [Hs Hw]. cbn [get_field]. rewrite Hw.
  destruct (o !! "folderUri") as [[|flag|z|q|items|fields]|] eqn:E;
    cbn [is_truthy truthy get_field get_first VSCode.replace_file_scheme];
    try reflexivity.
  - destruct flag; reflexivity.
  - destruct (negb (z =? 0)%Z); reflexivity.
  - rewrite (Hs q eq_refl). reflexivity.
Qed.

(** In a list sorted by key descending the scan ends at [row] when every
    other row whose key is not below that of [row] is passed over. *)
Lemma scan_rows_sorted (l : list FS.Row) (row : FS.Row) (p : string) :
  StronglySorted below l ->
  row ∈ l ->
  VSCode.scan_row row = Some p ->
  (forall r, r ∈ l ->
     r = row \/ String.ltb (FS.key r) (FS.key row) = true
     \/ Notions.passed_over r) ->
  VSCode.scan_rows l = Some p.
Proof.
  intros Hs Hin Hrow. induction Hs as [|h t Hs IH Hf]; intros Hall.
  - inversion Hin.
  - cbn [VSCode.scan_rows].
    apply elem_of_cons in Hin as [<-|Hin]; [now rewrite Hrow|].
    destruct (Hall h) as [->|[Hlt|Hskip]]; [left | | |].
    + now rewrite Hrow.
    + exfalso. rewrite Forall_forall in Hf.
      exact (ltb_not_leb _ _ Hlt (Hf row Hin)).
    + rewrite (passed_over_skip h Hskip). apply IH; [exact Hin|].
      intros r Hr. apply Hall. now right.
Qed.

(** [parseSqliteStorage]: of the rows of [ItemTable] that the query
    selects, the one with the highest key among those that are not passed
    over decides, wherever it stands in the table.  When that row is a
    JSON object whose [folderUri] is a non-empty string, the result is that
    string without its first [file://], percent-decoded; nothing when
    nothing is left of it, and an exception that nobody catches when what is
    left is malformed. *)
Theorem parseSqliteStorage_first_usable_row
  (filePath u : string) (fs : FS.t) (table : list FS.Row)
  (row : FS.Row) (o : JObject) :
  FS.entries fs !! filePath = Some (FS.File (FS.Vscdb (Some table))) ->
  row ∈ table ->
  VSCode.selected row = true ->
  FS.value row = FS.Document o ->
  o !! "folderUri" = Some (JStr u) ->
  u <> "" ->
  (forall r : FS.Row,
      r ∈ table -> VSCode.selected r = true ->
      r = row \/ String.ltb (FS.key r) (FS.key row) = true
      \/ Notions.passed_over r) ->
  let p := JS.remove_first "file://" u in
  (p = "" -> VSCode.parseSqliteStorage filePath fs = Resolved None)
  /\ (forall d : string,
        p <> "" -> JS.decodeURIComponent p = Some d ->
        VSCode.parseSqliteStorage filePath fs = Resolved (Some d))
  /\ (p <> "" -> JS.decodeURIComponent p = None ->
      VSCode.parseSqliteStorage filePath fs = Uncaught "URI malformed").
Proof.
  intros He Hin Hsel Hrow Huri Hu Hall p.
  enough (Hrun : VSCode.parseSqliteStorage filePath fs
                 = if JS.truthy p then
                     match JS.decodeURIComponent p with
                     | Some d => Resolved (Some d)
                     | None => Uncaught "URI malformed"
                     end
                   else Resolved None).
  { rewrite Hrun. repeat split.
    - intros ->. reflexivity.
    - intros d Hp Hd. now rewrite (CacheMore.truthy_nonempty p Hp), Hd.
    - intros Hp Hd. now rewrite (CacheMore.truthy_nonempty p Hp), Hd. }
  subst p.
  assert (Hscan : VSCode.scan_row row = Some (JS.remove_first "file://" u)).
  { unfold VSCode.scan_row. rewrite Hrow. cbn [get_field]. rewrite Huri.
    cbn [is_truthy truthy]. rewrite (CacheMore.truthy_nonempty u Hu).
    reflexivity. }
  unfold VSCode.parseSqliteStorage. rewrite He.
  rewrite (scan_rows_sorted (VSCode.query table) row
             (JS.remove_first "file://" u) (query_sorted table)).
  - reflexivity.
  - apply query_elem. split; assumption.
  - exact Hscan.
  - intros r Hr. apply query_elem in Hr as [Hr Hs]. now apply Hall.
Qed.

Lemma decode_scheme (p : string) :
  JS.decodeURIComponent ("file://" +:+ p)
  = (fun d => "file://" +:+ d) <$> JS.decodeURIComponent p.
Proof.
  unfold JS.decodeURIComponent.
  change ("file://" +:+ p)
    with (String "f" (String "i" (String "l" (String "e"
           (String ":" (String "/" (String "/" p))))))).
  cbn [JS.decode_from Ascii.eqb Bool.eqb].
  destruct (JS.decode_from [] 0 p); reflexivity.
Qed.

(** From Cursor's storage to git.  The folder of the last active window
    is a [file://] URI; [CursorService.getWorkspace] percent-decodes it
    and leaves the scheme on.  The constructor of the git service and the
    cache each take the scheme off and percent-decode once more, keeping
    what they have when it is malformed: both end with the same path, which
    has been decoded twice.  For a URI without percent signs that path is
    the one the URI names. *)
Theorem cursor_folder_decoded_twice
  {W : Type} (G : Git.SimpleGit W) (host : Host) (fs : FS.t) (w : W)
  (storagePath p once : string) (o windowsState last : JObject) :
  Cursor.findStoragePath host fs = Some storagePath ->
  storagePath <> "" ->
  FS.entries fs !! storagePath = Some (FS.File (FS.JsonDoc o)) ->
  o !! "windowsState" = Some (JObj windowsState) ->
  windowsState !! "lastActiveWindow" = Some (JObj last) ->
  last !! "folder" = Some (JStr ("file://" +:+ p)) ->
  JS.decodeURIComponent p = Some once ->
  Cursor.getWorkspace host fs = Some ("file://" +:+ once)
  /\ Git.workspacePath (Git.new_GitService G ("file://" +:+ once) w)
     = default once (JS.decodeURIComponent once)
  /\ WorkspaceCache.cleanWorkspacePath (Some ("file://" +:+ once))
     = Some (default once (JS.decodeURIComponent once))
  /\ (JS.percent_free p = true ->
      once = p /\ JS.decodeURIComponent once = Some p).
Proof.
  intros Hfind Hne He H1 H2 H3 Hp.
  assert (Hclean : Git.cleanWorkspacePath ("file://" +:+ once)
                   = default once (JS.decodeURIComponent once)).
  { unfold Git.cleanWorkspacePath, JS.remove_prefix.
    rewrite JSFacts.strip_prefix_app.
    destruct (JS.decodeURIComponent once); reflexivity. }
  split; [|split; [|split]].
  - unfold Cursor.getWorkspace. rewrite Hfind.
    rewrite (CacheMore.truthy_nonempty _ Hne). cbn [negb].
    unfold FS.readFileSync. rewrite He. unfold Cursor.parseCursorJson.
    cbn [FS.JSON_parse field_of get_field]. rewrite H1. cbn [get_field].
    rewrite H2. cbn [get_field]. rewrite H3.
    cbn [is_truthy truthy toString]. rewrite truthy_scheme.
    rewrite decode_scheme, Hp. reflexivity.
  - unfold Git.new_GitService. rewrite truthy_scheme.
    cbn [Git.workspacePath]. exact Hclean.
  - rewrite JSFacts.cache_clean_eq, truthy_scheme. now rewrite Hclean.
  - intros Hfree.
    rewrite (JSFacts.decode_percent_free p Hfree) in Hp.
    injection Hp as <-. split; [reflexivity|].
    now apply JSFacts.decode_percent_free.
Qed.

End LocatorMore.

(** ** The plugin: cache hits, the fallback, the action list *)

Module PluginMore.

Import Json Types Plugin Notions WorkspaceCache.

Lemma supported_identifier (app : string) :
  supported app = true ->
  app <> "" /\ app <> "__proto__" /\ app <> "_current_app_".
Proof. intros H. repeat split; intros ->; discriminate. Qed.

Section Plugin.

Context {V : Type}.
Variable G : Git.SimpleGit (World V).
Variable host : Host.

Abbreviation body := (executeAction_body G host).
Abbreviation PState := (@Plugin.PState V).

(** An activation that finds the workspace in the cache ends in a result
    and asks no IDE service. *)
Lemma body_hit (action : Action) (s : PState) (p : string) :
  getWorkspace host None (the_fs s) = Some p ->
  exists (st' : Git.St (World V)) (r : ActionResult),
    body action s
    = ({| st := st'; live_lookups := live_lookups s |}, Ok (Done r)).
Proof.
  intros Hhit.
  unfold executeAction_body, try_catch, bind, read_fs. rewrite Hhit.
  unfold lift_git, ret.
  destruct (dispatch G host action _ (st s)) as [st' [r|e]]; eauto.
Qed.

(** The cache holds a document with the pointer when [getCurrentApp]
    answers a non-empty string. *)
Lemma getCurrentApp_pointer (fs : FS.t) (app : string) :
  (forall v : JVal,
      FS.entries fs !! CACHE_FILE host <> Some (FS.File (FS.JsonValue v))) ->
  getCurrentApp host fs = Data (JStr app) ->
  app <> "" ->
  exists o : JObject,
    FS.entries fs !! CACHE_FILE host = Some (FS.File (FS.JsonDoc o))
    /\ o !! CURRENT_APP_KEY = Some (JStr app).
Proof.
  unfold getCurrentApp, FS.existsSync, FS.readFileSync, get_property.
  intros Hobj H Hne.
  destruct (FS.entries fs !! CACHE_FILE host) as [[|[| o | v |t]]|];
    simpl in H; try (injection H as <-; contradiction);
    [|destruct (Hobj v eq_refl)].
  exists o. split; [reflexivity|].
  unfold get_member, get_property in H.
  destruct (o !! CURRENT_APP_KEY) as [v|]; simpl in H.
  - destruct (truthy v); [congruence|].
    injection H as <-. contradiction.
  - injection H as <-. contradiction.
Qed.

(** An activation that misses the cache, finds a supported current
    application and gets a workspace from its service caches it and calls
    itself. *)
Lemma body_recache (action : Action) (s : PState) (app p : string) :
  getWorkspace host None (the_fs s) = None ->
  getCurrentApp host (the_fs s) = Data (JStr app) ->
  supported app = true ->
  locate host app (the_fs s) = Resolved (Some p) ->
  p <> "" ->
  body action s
  = ({| st := {| Git.world :=
                   {| fs := fst (saveWorkspace host app (Some p) (the_fs s));
                      vcs := vcs (Git.world (st s)) |};
                 Git.calls := Git.calls (st s) |};
        live_lookups := S (live_lookups s) |}, Ok Again).
Proof.
  intros Hmiss Happ Hsup Hloc Hp.
  destruct (supported_identifier app Hsup) as (Hne & _).
  unfold executeAction_body, try_catch, bind, read_fs. rewrite Hmiss, Happ.
  cbn [value_truthy truthy Plugin.toLowerCase ret].
  rewrite (CacheMore.truthy_nonempty app Hne).
  unfold supported in Hsup. rewrite Hsup.
  unfold count_lookup, the_fs in *. cbn [st live_lookups Git.world].
  unfold locate in Hloc. rewrite Hloc.
  cbn [JS.or_empty]. rewrite (CacheMore.truthy_nonempty p Hp).
  unfold lift_fs, the_fs. cbn [st live_lookups Git.world toPropertyKey toString].
  pose proof (CacheMore.saveWorkspace_quiet host app (Some p)
                (fs (Git.world (st s)))) as Hq.
  destruct (saveWorkspace host app (Some p) (fs (Git.world (st s))))
    as [fs' [[]|e]]; [reflexivity | discriminate].
Qed.

Lemma written_exists (k : string) (v : JVal) (fs fs' : FS.t) (p : string) :
  written host k v fs fs' ->
  FS.existsSync p fs = true -> FS.existsSync p fs' = true.
Proof.
  intros (_ & Hfile & _ & Hdir & Hother). unfold FS.existsSync.
  destruct (decide (p = CACHE_DIR host)) as [->|Hd]; [now rewrite Hdir|].
  destruct (decide (p = CACHE_FILE host)) as [->|Hf]; [now rewrite Hfile|].
  now rewrite (Hother p Hd Hf).
Qed.

(** After the re-caching of a workspace whose normalised path exists, a
    read without identifier finds it. *)
Lemma recached_hit (fs : FS.t) (app p q : string) :
  usable host fs ->
  getCurrentApp host fs = Data (JStr app) ->
  supported app = true ->
  cleanWorkspacePath (Some p) = Some q ->
  q <> "" ->
  FS.existsSync q fs = true ->
  getWorkspace host None (fst (saveWorkspace host app (Some p) fs)) = Some q.
Proof.
  intros Hu Happ Hsup Hclean Hq Hex.
  destruct (supported_identifier app Hsup) as (Hne & Hproto & Hkey).
  destruct (getCurrentApp_pointer fs app (proj2 (proj2 (proj2 (proj2 Hu))))
              Happ Hne) as (o & He & Hptr).
  destruct (CacheMore.saveWorkspace_written host app (Some p) fs Hu Hproto)
    as (_ & Hw).
  pose proof (written_exists _ _ _ _ q Hw Hex) as Hex'.
  destruct Hw as (_ & He' & _).
  assert (Hdoc : cache_doc host fs = o).
  { unfold cache_doc. now rewrite He. }
  rewrite Hdoc in He'.
  assert (Hptr' : (<[app := stored (Some p)]> o) !! CURRENT_APP_KEY
                  = Some (JStr app)).
  { rewrite lookup_insert_ne by (unfold CURRENT_APP_KEY; congruence).
    exact Hptr. }
  rewrite (CacheMore.getWorkspace_pointer host None app _ _ eq_refl Hne He'
             Hptr').
  unfold get_property. rewrite lookup_insert_eq.
  unfold stored. rewrite Hclean. unfold checked.
  now rewrite (CacheMore.truthy_nonempty q Hq), Hex'.
Qed.

(** A cache hit settles [executeAction] in its first activation, without
    asking an IDE service; an action id that is none of the known ones is
    answered with the unknown-action message and no git call. *)
Theorem executeAction_cache_hit
  (fuel : nat) (action : Action) (s : PState) (p : string) :
  getWorkspace host None (the_fs s) = Some p ->
  (exists (s' : PState) (r : ActionResult),
      executeAction G host (S fuel) action s = Some (s', r)
      /\ live_lookups s' = live_lookups s)
  /\ (id action <> "git_status" -> id action <> "git_commit_push" ->
      executeAction G host (S fuel) action s
      = Some (s, {| message := "未知的动作: " +:+ id action |})).
Proof.
  intros Hhit. split.
  - destruct (body_hit action s p Hhit) as (st' & r & Hb).
    cbn [executeAction]. rewrite Hb. eauto.
  - intros H1 H2. cbn [executeAction].
    unfold executeAction_body, try_catch, bind, read_fs. rewrite Hhit.
    unfold lift_git, dispatch, ret.
    apply String.eqb_neq in H1. apply String.eqb_neq in H2.
    rewrite H1, H2. destruct s as [st0 n]. reflexivity.
Qed.

(** The fallback works in one shot when the cache is usable and the
    workspace found exists: the first activation asks the IDE service
    once and caches the answer, the second one hits the cache and
    settles. *)
Theorem executeAction_fallback_settles
  (fuel : nat) (action : Action) (s : PState) (app p q : string) :
  usable host (the_fs s) ->
  getWorkspace host None (the_fs s) = None ->
  getCurrentApp host (the_fs s) = Data (JStr app) ->
  supported app = true ->
  locate host app (the_fs s) = Resolved (Some p) ->
  cleanWorkspacePath (Some p) = Some q ->
  q <> "" ->
  FS.existsSync q (the_fs s) = true ->
  executeAction G host 1 action s = None
  /\ exists (s' : PState) (r : ActionResult),
      executeAction G host (S (S fuel)) action s = Some (s', r)
      /\ live_lookups s' = S (live_lookups s).
Proof.
  intros Hu Hmiss Happ Hsup Hloc Hclean Hq Hex.
  assert (Hp : p <> "") by (intros ->; discriminate).
  pose proof (body_recache action s app p Hmiss Happ Hsup Hloc Hp) as Hb.
  pose proof (recached_hit _ app p q Hu Happ Hsup Hclean Hq Hex) as Hhit.
  split.
  - cbn [executeAction]. now rewrite Hb.
  - cbn [executeAction]. rewrite Hb.
    match goal with |- context [body action ?s1] =>
      destruct (body_hit action s1 q Hhit) as (st' & r & Hb2) end.
    rewrite Hb2. eauto.
Qed.


(** *** The action list *)

Variable toLowerCase : string -> string.

Abbreviation getActions := (Actions.getActions G host toLowerCase).

Lemma read_status_run (workspace : string) (s : PState) :
  exists (gs : GitStatus) (cs' : list Git.GitCall),
    Actions.read_status G host workspace s
    = ({| st := {| Git.world := Git.world (st s);
                   Git.calls := Git.calls (st s) ++ cs' |};
          live_lookups := live_lookups s |}, Ok gs)
    /\ queries_only cs'
    /\ (isRepo gs = false -> gs = Git.defaultStatus)
    /\ summary_seen G host (Resolved (Some workspace)) (Git.world (st s))
         (Git.calls (st s)) gs.
Proof.
  unfold Actions.read_status, try_catch, bind, lift_git, ret.
  unfold Plugin.isGitRepository, Plugin.getStatus.
  set (svc := Git.new_GitService G workspace (Git.world (st s))).
  destruct (GitRuns.isGitRepository_query world_existsSync G host svc (st s))
    as (b & cs1 & -> & Hq1).
  destruct b; cbn [st live_lookups].
  - destruct (GitRuns.getStatus_query world_existsSync G host svc
                {| Git.world := Git.world (st s);
                   Git.calls := Git.calls (st s) ++ cs1 |})
      as (gs & cs2 & Hgs & Hq2 & Hdef).
    rewrite Hgs.
    exists gs, (cs1 ++ cs2). cbn [Git.world Git.calls].
    rewrite <- app_assoc. split; [reflexivity|].
    split; [now apply Forall_app|]. split; [exact Hdef|].
    right. exists workspace, cs1. split; [reflexivity|].
    fold svc. now rewrite Hgs.
  - exists Git.defaultStatus, cs1. repeat split; [exact Hq1|].
    left. reflexivity.
Qed.

Ltac give_empty :=
  unfold ret; eexists _, _, []; split; [reflexivity|];
  cbn [st Git.calls Git.world vcs];
  split; [now rewrite app_nil_r|]; split; [constructor|];
  split; [reflexivity|];
  left; exists [], Git.defaultStatus;
  split; [reflexivity|]; split; [left; reflexivity|];
  split; [constructor | reflexivity].

(** For an application that is neither VSCode nor Cursor the list is
    empty and nothing is touched: no cache write, no lookup, no git
    call. *)
Theorem getActions_unsupported (context : PluginContext) (s : PState) :
  supported (overlaidApp context) = false ->
  getActions context s = (s, Ok (Resolved [])).
Proof.
  intros Hsup. unfold Actions.getActions.
  unfold supported in Hsup. apply orb_false_iff in Hsup as [Hv Hc].
  now rewrite Hv, Hc.
Qed.

(** [getActions] rejects on no input, issues only git queries and leaves
    the version-control state alone.  Either it resolves, and the list is
    taken, in order, from the actions of one status summary (the status
    action when the workspace is a repository, followed by the commit
    action when there are changes; exactly that list without a keyword),
    the summary being the zeroed one or that of [getStatus] on the
    workspace the IDE service found.  Or the lookup of the VSCode service
    lets an exception out of the database callback: then no git call was
    made, nothing is returned and the exception stays uncaught. *)
Theorem getActions_offers
  (context : PluginContext) (s : PState) :
  let app := overlaidApp context in
  let found := locate host app (fst (saveCurrentApp host app (the_fs s))) in
  exists (s' : PState) (cs' : list Git.GitCall),
    fst (getActions context s) = s'
    /\ Git.calls (st s') = Git.calls (st s) ++ cs'
    /\ queries_only cs'
    /\ vcs (Git.world (st s')) = vcs (Git.world (st s))
    /\ ((exists (l : list Action) (gs : GitStatus),
           snd (getActions context s) = Ok (Resolved l)
           /\ summary_seen G host found (Git.world (st s'))
                (Git.calls (st s)) gs
           /\ l `sublist_of` Actions.actions_of gs
           /\ (keyword context = "" -> l = Actions.actions_of gs))
        \/ (exists e : string,
              snd (getActions context s) = Ok (Uncaught e)
              /\ found = Uncaught e
              /\ JS.includes (JS.toLowerCase app) "cursor" = false
              /\ cs' = [])).
Proof.
  cbv zeta.
  enough (exists (s' : PState) (r : Settled (list Action))
                 (cs' : list Git.GitCall),
    getActions context s = (s', Ok r)
    /\ Git.calls (st s') = Git.calls (st s) ++ cs'
    /\ queries_only cs'
    /\ vcs (Git.world (st s')) = vcs (Git.world (st s))
    /\ ((exists (l : list Action) (gs : GitStatus),
           r = Resolved l
           /\ summary_seen G host
                (locate host (overlaidApp context)
                   (fst (saveCurrentApp host (overlaidApp context)
                           (the_fs s))))
                (Git.world (st s')) (Git.calls (st s)) gs
           /\ l `sublist_of` Actions.actions_of gs
           /\ (keyword context = "" -> l = Actions.actions_of gs))
        \/ (exists e : string,
              r = Uncaught e
              /\ locate host (overlaidApp context)
                   (fst (saveCurrentApp host (overlaidApp context)
                           (the_fs s))) = Uncaught e
              /\ JS.includes (JS.toLowerCase (overlaidApp context)) "cursor"
                 = false
              /\ cs' = []))) as (s' & r & cs' & Hrun & H1 & H2 & H3 & H4).
  { exists s', cs'. rewrite Hrun. cbn [fst snd].
    repeat (split; [first [reflexivity | assumption]|]).
    destruct H4 as [(l & gs & -> & H4)|(e & -> & H4)];
      [left; exists l, gs | right; exists e]; split; auto. }
  unfold Actions.getActions.
  destruct (negb _ && negb _); [give_empty|].
  unfold bind at 1. unfold lift_fs at 1.
  pose proof (CacheMore.saveCurrentApp_quiet host (overlaidApp context)
                (the_fs s)) as Hq1.
  destruct (saveCurrentApp host (overlaidApp context) (the_fs s))
    as [fs1 [[]|e]]; [|discriminate]. clear Hq1.
  unfold bind at 1. unfold read_fs at 1. unfold locate, the_fs.
  cbn [fst st Git.world fs].
  match goal with |- context [match ?x with Resolved _ => _ | Uncaught _ => _ end] =>
    destruct x as [workspace|e] eqn:Hlook end.
  2:{ unfold ret. eexists _, _, []. split; [reflexivity|].
      cbn [st Git.calls Git.world vcs]. split; [now rewrite app_nil_r|].
      split; [constructor|]. split; [reflexivity|]. right. exists e.
      split; [reflexivity|].
      destruct (JS.includes (JS.toLowerCase (overlaidApp context)) "cursor");
        [discriminate Hlook|].
      repeat split. }
  destruct (JS.truthy (JS.or_empty workspace)) eqn:Hw.
  2:{ give_empty. }
  destruct workspace as [workspace|]; [|discriminate Hw]. cbn [JS.or_empty].
  unfold bind at 1. unfold lift_fs at 1. unfold the_fs at 1.
  cbn [st Git.world fs].
  pose proof (CacheMore.saveWorkspace_quiet host (overlaidApp context)
                (Some workspace) fs1) as Hq2.
  destruct (saveWorkspace host (overlaidApp context) (Some workspace) fs1)
    as [fs2 [[]|e]]; [|discriminate]. clear Hq2.
  unfold bind at 1.
  match goal with |- context [Actions.read_status G host ?w ?s0] =>
    destruct (read_status_run w s0) as (gs & cs' & -> & Hq & _ & Hseen) end.
  cbn [st Git.world Git.calls live_lookups vcs] in *.
  destruct (JS.truthy (keyword context)) eqn:Hk; unfold ret;
    eexists _, _, cs'; (split; [reflexivity|]);
    cbn [st Git.world Git.calls vcs];
    (split; [reflexivity|]); (split; [exact Hq|]); (split; [reflexivity|]);
    left; eexists _, gs; (split; [reflexivity|]); (split; [exact Hseen|]).
  - split; [apply sublist_filter|].
    intros E. rewrite E in Hk. discriminate.
  - split; reflexivity.
Qed.

(** The data flow from the list to the execution: when [getActions] ran
    for a supported application on a usable cache and the service found a
    workspace whose normalised path exists, the cache read of a later
    [executeAction] hits, and the execution settles in its first
    activation without asking the IDE again. *)
Theorem getActions_then_executeAction
  (context : PluginContext) (s : PState) (p q : string) :
  usable host (the_fs s) ->
  supported (overlaidApp context) = true ->
  locate host (overlaidApp context)
    (fst (saveCurrentApp host (overlaidApp context) (the_fs s)))
  = Resolved (Some p) ->
  cleanWorkspacePath (Some p) = Some q ->
  q <> "" ->
  FS.existsSync q (the_fs s) = true ->
  exists (s1 : PState) (l : list Action),
    getActions context s = (s1, Ok (Resolved l))
    /\ getWorkspace host None (the_fs s1) = Some q
    /\ forall (fuel : nat) (action : Action),
        exists (s2 : PState) (r : ActionResult),
          executeAction G host (S fuel) action s1 = Some (s2, r)
          /\ live_lookups s2 = live_lookups s1.
Proof.
  intros Hu Hsup Hloc Hclean Hq Hex.
  set (app := overlaidApp context) in *.
  destruct (supported_identifier app Hsup) as (Hne & Hproto & Hkey).
  assert (Hp : p <> "") by (intros ->; discriminate).
  destruct (CacheMore.saveCurrentApp_written host app (the_fs s) Hu)
    as (_ & Hw1).
  pose proof (written_exists _ _ _ _ q Hw1 Hex) as Hex1.
  destruct Hw1 as (_ & He1 & Hu1 & _).
  assert (Happ1 : getCurrentApp host (fst (saveCurrentApp host app (the_fs s)))
                  = Data (JStr app)).
  { rewrite (CacheMore.getCurrentApp_doc host _ _ He1).
    unfold get_property. rewrite lookup_insert_eq. simpl.
    now rewrite (CacheMore.truthy_nonempty app Hne). }
  pose proof (recached_hit _ app p q Hu1 Happ1 Hsup Hclean Hq Hex1) as Hhit.
  assert (Hrun : exists (s1 : PState) (l : list Action),
    getActions context s = (s1, Ok (Resolved l))
    /\ the_fs s1
       = fst (saveWorkspace host app (Some p)
                (fst (saveCurrentApp host app (the_fs s))))).
  { unfold Actions.getActions. fold app.
    unfold supported in Hsup.
    rewrite <- negb_orb, Hsup. cbn [negb].
    unfold bind at 1. unfold lift_fs at 1.
    pose proof (CacheMore.saveCurrentApp_quiet host app (the_fs s)) as Hq1.
    destruct (saveCurrentApp host app (the_fs s)) as [fs1 [[]|e]];
      [|discriminate]. clear Hq1. cbn [fst] in *.
    unfold bind at 1. unfold read_fs at 1. unfold the_fs.
    cbn [st Git.world fs].
    unfold locate in Hloc. rewrite Hloc.
    cbn [JS.or_empty]. rewrite (CacheMore.truthy_nonempty p Hp).
    unfold bind at 1. unfold lift_fs at 1. unfold the_fs at 1.
    cbn [st Git.world fs].
    pose proof (CacheMore.saveWorkspace_quiet host app (Some p) fs1) as Hq2.
    destruct (saveWorkspace host app (Some p) fs1) as [fs2 [[]|e]];
      [|discriminate]. clear Hq2. cbn [fst].
    unfold bind at 1.
    match goal with |- context [Actions.read_status G host ?w ?s0] =>
      destruct (read_status_run w s0) as (gs & cs' & -> & _) end.
    destruct (JS.truthy (keyword context)); unfold ret;
      eexists _, _; (split; [reflexivity|]); reflexivity. }
  destruct Hrun as (s1 & l & Hrun & Hfs).
  exists s1, l. split; [exact Hrun|].
  rewrite <- Hfs in Hhit. split; [exact Hhit|].
  intros fuel action.
  destruct (body_hit action s1 q Hhit) as (st' & r & Hb).
  cbn [executeAction]. rewrite Hb. eauto.
Qed.

End Plugin.

End PluginMore.

(** ** The further properties on the fixtures *)

Module Witnesses.

Import Json Types Git Sim Notions Scenarios WorkspaceCache.

Ltac prove_usable :=
  split; [discriminate|];
  split; [first [ left; reflexivity
                | right; split; [reflexivity | apply not_elem_of_empty] ]|];
  split; [apply not_elem_of_empty|];
  split; [discriminate | intros v; discriminate].

Lemma getStatus_summary_witness :
  exists unpushed : bool,
    snd (Git.getStatus world_existsSync backend host service
           (start (world_with (dirty_repo [origin] ∅))))
    = Ok {| Types.isRepo := true;
            Types.branch := "main";
            Types.changedFilesCount := 2;
            Types.hasChanges := true;
            Types.hasUnpushedCommits := unpushed |}.
Proof.
  destruct (GitRuns.getStatus_summary world_existsSync backend host service
              "/w" (world_with (dirty_repo [origin] ∅)) []
              (work_tree (dirty_repo [origin] ∅)) "true"
              eq_refl eq_refl eq_refl eq_refl) as (u & _ & H).
  exists u. exact H.
Defined.



Lemma commitAndPush_push_target_witness :
  exists s' : St World,
    Git.commitAndPush world_existsSync backend host service
      (start (world_with (dirty_repo [origin] ∅)))
    = (s', Ok {| success := true;
                 message := "已成功提交并推送更改: 自动提交: 修改: 1个文件, 未跟踪: 1个文件 [GitOK]" |})
    /\ log_of s' = Some [auto_message; "init"].
Proof.
  eexists. split.
  - eapply (GitFacts.commitAndPush_push_target world_existsSync backend host
              service "/w" (world_with (dirty_repo [origin] ∅)) _ _ _ []
              (work_tree (dirty_repo [origin] ∅)) "true" origin [] "main");
      try reflexivity; discriminate.
  - reflexivity.
Defined.

Lemma getChangesDescription_summary_witness :
  snd (Git.getChangesDescription backend service
         (start (world_with (dirty_repo [origin] ∅))))
  = Ok "修改: 1个文件, 未跟踪: 1个文件".
Proof.
  destruct (DescriptionFacts.getChangesDescription_summary backend service
              "/w" (start (world_with (dirty_repo [origin] ∅))) eq_refl)
    as [H _].
  destruct (H (work_tree (dirty_repo [origin] ∅)) eq_refl)
    as (d & Hd & -> & _).
  exact Hd.
Defined.

Lemma saveCurrentApp_then_getCurrentApp_witness :
  getCurrentApp host (fst (saveCurrentApp host "Cursor" fs_project))
  = Data (JStr "Cursor").
Proof.
  apply (CacheMore.saveCurrentApp_then_getCurrentApp host "Cursor" fs_project).
  prove_usable.
Defined.

Lemma pointer_then_workspace_witness :
  getWorkspace host None
    (fst (saveWorkspace host "Cursor" (Some "file:///w")
            (fst (saveCurrentApp host "Cursor" fs_project))))
  = Some "/w".
Proof.
  assert (Hu : usable host fs_project) by prove_usable.
  exact (proj2 (CacheMore.pointer_then_workspace host "Cursor"
                  (Some "file:///w") fs_project _ Hu
                  ltac:(discriminate) ltac:(discriminate)
                  ltac:(discriminate) eq_refl)).
Defined.

Lemma getWorkspace_after_two_writes_witness :
  getWorkspace host (Some "Cursor")
    (fst (saveWorkspace host "Code" (Some "/elsewhere")
            (fst (saveWorkspace host "Cursor" (Some "file:///w") fs_project))))
  = Some "/w".
Proof.
  rewrite (CacheMore.getWorkspace_after_two_writes host "Cursor" "Code"
             (Some "file:///w") (Some "/elsewhere") fs_project);
    try discriminate.
  - reflexivity.
  - prove_usable.
Defined.

Lemma getWorkspace_exists_witness :
  FS.existsSync "/w" fs_cached = true /\ "/w" <> "".
Proof.
  apply (CacheMore.getWorkspace_exists host None fs_cached "/w").
  reflexivity.
Defined.

Lemma save_failure_is_silent_witness :
  snd (saveWorkspace host "Cursor" (Some "/w") fs_read_only) = Ok tt
  /\ Notions.cache_doc host
       (fst (saveWorkspace host "Cursor" (Some "/w") fs_read_only))
     = {[ "_current_app_" := JStr "Cursor" ]}.
Proof.
  destruct (CacheMore.save_failure_is_silent host "Cursor" (Some "/w")
              fs_read_only) as (H1 & _ & H3).
  split; [exact H1|].
  destruct H3 as [H _].
  - discriminate.
  - change (CACHE_FILE host ∈
            ({[ "/home/u/.coffic/git-helper/workspace.json" ]} : gset string)).
    set_solver.
  - unfold Notions.cache_doc. rewrite H. reflexivity.
Defined.

Lemma null_cache_is_inert_witness :
  FS.existsSync "/w" fs_null_cache = true
  /\ getWorkspace host (Some "Cursor")
       (fst (saveWorkspace host "Cursor" (Some "/w") fs_null_cache))
     = None.
Proof.
  split; [reflexivity|].
  exact (proj1 (proj2 (proj2
    (CacheMore.null_cache_is_inert host "Cursor" (Some "/w") (Some "Cursor")
       fs_null_cache eq_refl)))).
Defined.

Lemma parseJsonStorage_history_first_witness :
  VSCode.parseJsonStorage "/home/u/.config/Code/storage.json" fs_vscode
  = Some "/w".
Proof.
  destruct (LocatorMore.parseJsonStorage_history_first
              "/home/u/.config/Code/storage.json" "/w" fs_vscode vscode_doc
              eq_refl eq_refl) as [H _].
  eapply H; reflexivity.
Defined.

Lemma parseSqliteStorage_first_usable_row_witness :
  VSCode.parseSqliteStorage
    "/home/u/.config/Code/User/globalStorage/state.vscdb" fs_vscdb
  = Resolved (Some "/w").
Proof.
  refine (proj1 (proj2
    (LocatorMore.parseSqliteStorage_first_usable_row
       "/home/u/.config/Code/User/globalStorage/state.vscdb" "file:///w"
       fs_vscdb item_table folder_row
       {[ "folderUri" := JStr "file:///w" ]}
       eq_refl _ eq_refl eq_refl eq_refl _ _)) "/w" _ eq_refl).
  - unfold item_table. set_solver.
  - discriminate.
  - intros r Hr Hsel. unfold item_table in Hr.
    repeat (apply elem_of_cons in Hr as [->|Hr]);
      try (inversion Hr; fail); try discriminate Hsel.
    + right. left. reflexivity.
    + left. reflexivity.
    + right. right. split; [discriminate | reflexivity].
    + right. right. split; [discriminate | reflexivity].
    + right. right. exact I.
    + right. right. exact I.
    + right. right. exact I.
  - discriminate.
Defined.

Lemma cursor_folder_decoded_twice_witness :
  Cursor.getWorkspace host fs_escaped = Some "file:///tmp/a%20b"
  /\ workspacePath
       (new_GitService backend "file:///tmp/a%20b"
          (world_with (dirty_repo [] ∅)))
     = "/tmp/a b"
  /\ cleanWorkspacePath (Some "file:///tmp/a%20b") = Some "/tmp/a b".
Proof.
  destruct (LocatorMore.cursor_folder_decoded_twice backend host
              fs_escaped (world_with (dirty_repo [] ∅))
              "/home/u/.config/Cursor/storage.json" "/tmp/a%2520b"
              "/tmp/a%20b"
              {[ "windowsState" :=
                   JObj {[ "lastActiveWindow" :=
                             JObj {[ "folder" := JStr "file:///tmp/a%2520b" ]} ]} ]}
              {[ "lastActiveWindow" :=
                   JObj {[ "folder" := JStr "file:///tmp/a%2520b" ]} ]}
              {[ "folder" := JStr "file:///tmp/a%2520b" ]}
              eq_refl ltac:(discriminate) eq_refl eq_refl eq_refl eq_refl
              eq_refl) as (H1 & H2 & H3 & _).
  split; [exact H1|]. split; [exact H2 | exact H3].
Defined.

Lemma executeAction_cache_hit_witness :
  exists (s' : Plugin.PState) (r : ActionResult),
    Plugin.executeAction backend host 1 status_request (plugin_on fs_cached)
    = Some (s', r)
    /\ Plugin.live_lookups s' = 0.
Proof.
  destruct (PluginMore.executeAction_cache_hit backend host 0 status_request
              (plugin_on fs_cached) "/w" eq_refl) as [H _].
  exact H.
Defined.

Lemma executeAction_fallback_settles_witness :
  Plugin.executeAction backend host 1 status_request
    (plugin_on fs_pointer_only) = None
  /\ exists (s' : Plugin.PState) (r : ActionResult),
      Plugin.executeAction backend host 2 status_request
        (plugin_on fs_pointer_only) = Some (s', r)
      /\ Plugin.live_lookups s' = 1.
Proof.
  apply (PluginMore.executeAction_fallback_settles backend host 0
           status_request (plugin_on fs_pointer_only) "Cursor" "file:///w"
           "/w"); try reflexivity.
  - prove_usable.
  - discriminate.
Defined.


Lemma getActions_unsupported_witness :
  Actions.getActions backend host JS.toLowerCase in_terminal
    (plugin_on fs_project)
  = (plugin_on fs_project, Ok (Resolved [])).
Proof.
  apply (PluginMore.getActions_unsupported backend host JS.toLowerCase
           in_terminal (plugin_on fs_project)).
  reflexivity.
Defined.

Lemma getActions_then_executeAction_witness :
  exists (s1 : Plugin.PState) (l : list Action),
    Actions.getActions backend host JS.toLowerCase in_cursor
      (plugin_on fs_project) = (s1, Ok (Resolved l))
    /\ getWorkspace host None (Plugin.the_fs s1) = Some "/w"
    /\ forall (fuel : nat) (action : Action),
        exists (s2 : Plugin.PState) (r : ActionResult),
          Plugin.executeAction backend host (S fuel) action s1 = Some (s2, r)
          /\ Plugin.live_lookups s2 = Plugin.live_lookups s1.
Proof.
  apply (PluginMore.getActions_then_executeAction backend host JS.toLowerCase
           in_cursor (plugin_on fs_project) "file:///w" "/w");
    try reflexivity.
  - prove_usable.
  - discriminate.
Defined.

End Witnesses.
